(** * sgauth/default.go: discovery of application default credentials

    A shallow embedding of [src/go/sgauth/default.go] and the properties of
    its resolution chain.

    Everything the Go code reads from its surroundings (environment
    variables, files, the current user, the App Engine hooks, the metadata
    server) is gathered in one read-only record, [World].  The functions of
    the file run in a small monad that reads the world, logs every access to
    it as an [Event], and can panic (a call through a nil function value).
    Go's two-valued returns (a pointer and an error) are kept as pairs of
    options, so that nil credentials and a nil error are facts to prove,
    not typing. *)

From Stdlib Require Import Strings.String Strings.Ascii Strings.Byte Lists.List.
From stdpp Require Import base strings gmap list.

Local Open Scope string_scope.

(** ** Values of the Go program *)

(** [context.Context], reduced to what can be observed of it: [ctx.Err()]. *)
Inductive CtxErr : Type := Canceled | DeadlineExceeded.

Record Context : Type := mkContext { ctx_Err : option CtxErr }.

Definition context_Background : Context := mkContext None.

(** The error numbers a failed [open]/[read] can carry. *)
Inductive Errno : Type := ENOENT | ENOTDIR | EACCES | EISDIR | EIO.

(** The errors of encoding/json. *)
Inductive JSONErr : Type :=
| SyntaxError (msg : string)
| UnmarshalTypeError (value field : string).

(** Go [error] values met in this file. *)
Inductive error : Type :=
| PathError (op path : string) (errno : Errno)  (* os.PathError *)
| JSONError (e : JSONErr)                       (* encoding/json errors *)
| ContextError (e : CtxErr)                     (* context.Canceled, ... *)
| errorString (msg : string).                   (* errors.New, fmt.Errorf *)

Definition Errno_Error (e : Errno) : string :=
  match e with
  | ENOENT => "no such file or directory"
  | ENOTDIR => "not a directory"
  | EACCES => "permission denied"
  | EISDIR => "is a directory"
  | EIO => "input/output error"
  end.

(** The step of [ioutil.ReadFile] that fails with an error number: a
    directory opens and then cannot be read. *)
Definition Errno_op (e : Errno) : string :=
  match e with
  | ENOENT | ENOTDIR | EACCES => "open"
  | EISDIR | EIO => "read"
  end.

(** The [Error()] method, which [%v] prints. *)
Definition Error (e : error) : string :=
  match e with
  | PathError op path errno => op +:+ " " +:+ path +:+ ": " +:+ Errno_Error errno
  | JSONError (SyntaxError msg) => msg
  | JSONError (UnmarshalTypeError value field) =>
      "json: cannot unmarshal " +:+ value +:+ " into Go struct field " +:+ field
  | ContextError Canceled => "context canceled"
  | ContextError DeadlineExceeded => "context deadline exceeded"
  | errorString msg => msg
  end.

(** [os.IsNotExist]. *)
Definition os_IsNotExist (e : error) : bool :=
  match e with
  | PathError _ _ ENOENT => true
  | _ => false
  end.

(** Whether an error is one of the context package's. *)
Definition isCancellation (e : error) : bool :=
  match e with
  | ContextError _ => true
  | _ => false
  end.

(** [fmt.Errorf], applied to the already formatted message. *)
Definition fmt_Errorf (msg : string) : error := errorString msg.

(** [s] occurs in [t]. *)
Definition contains (s t : string) : Prop :=
  exists pre post : string, t = pre +:+ s +:+ post.

(** The consent callback of [Settings]. *)
Definition FlowHandler : Type := string -> string * option error.

(** [internal.TokenSource] values.  The first two are built in this file;
    the other two stand for what the credentials package builds from a
    document. *)
Inductive TokenSource : Type :=
| AppEngineTokenSource (ctx : Context) (scope : string)
| ComputeTokenSource (account : string)
| JWTConfigTokenSource (email key : string) (scopes : list string)
| RefreshTokenSource (clientID clientSecret refreshToken : string).

(** Modelled from the spec: [credentials.File], the decoded credential
    document, declared in the credentials package.  Section 6 of the spec
    gives the [type] and [project_id] fields, section 3 the key material of
    the two kinds. *)
Record File : Type := mkFile {
  File_Type : string;
  File_ProjectID : string;
  File_ClientEmail : string;
  File_PrivateKey : string;
  File_ClientID : string;
  File_ClientSecret : string;
  File_RefreshToken : string
}.

(** The zero value of [var f credentials.File]. *)
Definition File_zero : File := mkFile "" "" "" "" "" "" "".

(** [credentials.Credentials]. *)
Record Credentials : Type := mkCredentials {
  ProjectID : string;
  Creds_TokenSource : option TokenSource;
  JSON : list byte
}.

(** Modelled from the spec: [Settings], declared elsewhere in the package
    (section 3 of the spec lists its fields, which are the ones default.go
    reads). *)
Record Settings : Type := mkSettings {
  Scope : string;
  Audience : string;
  CredentialsJSON : string;
  OAuthFlowHandler : option FlowHandler;
  State : string
}.

(** [os/user.User]. *)
Record User : Type := mkUser { HomeDir : string }.

(** ** The world the resolution reads *)

(** The App Engine token hook: scopes to token or error. *)
Definition TokenFunc : Type := Context -> list string -> string * option error.

Record World : Type := mkWorld {
  (* os.Environ *)
  environ : gmap string string;
  (* the file system, as what opening and reading each path answers: the
     contents; an error number (ENOTDIR for a path below something that is
     not a directory); no entry for a path that does not exist below
     directories that do, which is ENOENT *)
  files : gmap string (Errno + list byte);
  (* runtime.GOOS *)
  GOOS : string;
  (* what user.Current() answers *)
  currentUser : error + User;
  (* the package-level hooks set at init time on App Engine, nil otherwise *)
  appengineTokenFunc : option TokenFunc;
  appengineAppIDFunc : option (Context -> string);
  appengineFlex : bool;
  (* the metadata server *)
  onGCE : bool;
  metadataProjectID : string * option error
}.

(** Accesses to the world, in the order they happen. *)
Inductive Event : Type :=
| EvGetenv (name : string)
| EvReadFile (path : string)
| EvUserCurrent
| EvAppID (ctx : Context)
| EvOnGCE
| EvMetadataProjectID.

(** ** The monad: read the world, log accesses, maybe panic *)

Inductive outcome (A : Type) : Type :=
| Val (a : A)
| Panic.

Arguments Val {A} a.
Arguments Panic {A}.

Definition M (A : Type) : Type := World -> list Event * outcome A.

Definition ret {A : Type} (a : A) : M A := fun _ => ([], Val a).

Definition bind {A B : Type} (m : M A) (k : A -> M B) : M B :=
  fun w =>
    match m w with
    | (t1, Val a) =>
        match k a w with
        | (t2, o) => ((t1 ++ t2)%list, o)
        end
    | (t1, Panic) => (t1, Panic)
    end.

Notation "'let*' x ':=' m 'in' k" := (bind m (fun x => k))
  (at level 10, x pattern, m at level 100, k at level 200).

(** Reading a package-level variable: no access is logged. *)
Definition global {A : Type} (proj : World -> A) : M A :=
  fun w => ([], Val (proj w)).

Definition trace {A : Type} (r : list Event * outcome A) : list Event := fst r.

Definition result {A : Type} (r : list Event * outcome A) : outcome A := snd r.

(** ** The library calls of the file *)

(** The value [os.Getenv] answers: the empty string when the variable is
    not set. *)
Definition getenv (w : World) (name : string) : string :=
  default "" (environ w !! name).

Definition os_Getenv (name : string) : M string :=
  fun w => ([EvGetenv name], Val (getenv w name)).

(** What reading a file answers: no entry is a does-not-exist error. *)
Definition readFile (w : World) (filename : string) : list byte * option error :=
  match files w !! filename with
  | None => ([], Some (PathError "open" filename ENOENT))
  | Some (inl errno) => ([], Some (PathError (Errno_op errno) filename errno))
  | Some (inr b) => (b, None)
  end.

(** Nothing is at the path: it does not exist, or something on the way to
    it is not a directory. *)
Definition fileAbsent (w : World) (path : string) : bool :=
  match files w !! path with
  | None | Some (inl ENOENT) | Some (inl ENOTDIR) => true
  | Some _ => false
  end.

(** [ioutil.ReadFile]. *)
Definition ioutil_ReadFile (filename : string) : M (list byte * option error) :=
  fun w => ([EvReadFile filename], Val (readFile w filename)).

(** [user.Current]. *)
Definition user_Current : M (error + User) :=
  fun w => ([EvUserCurrent], Val (currentUser w)).

(** [metadata.OnGCE] and [metadata.ProjectID]. *)
Definition metadata_OnGCE : M bool :=
  fun w => ([EvOnGCE], Val (onGCE w)).

Definition metadata_ProjectID : M (string * option error) :=
  fun w => ([EvMetadataProjectID], Val (metadataProjectID w)).

(** The call [appengineAppIDFunc(ctx)]: a nil function value panics. *)
Definition call_appengineAppIDFunc (ctx : Context) : M string :=
  fun w =>
    match appengineAppIDFunc w with
    | Some f => ([EvAppID ctx], Val (f ctx))
    | None => ([], Panic)
    end.

(** [strings.Split(s, sep)] for a separator of one character, the only use
    in the file (a space): the pieces between the separators, and a single
    empty piece for the empty string. *)
Fixpoint strings_Split (s : string) (sep : ascii) : list string :=
  match s with
  | EmptyString => [EmptyString]
  | String c s' =>
      if Ascii.eqb c sep then EmptyString :: strings_Split s' sep
      else match strings_Split s' sep with
           | piece :: rest => String c piece :: rest
           | [] => [String c EmptyString]
           end
  end.

(** ** The functions of default.go *)

Section Resolution.

(** The collaborators of the file: [json.Unmarshal] at type
    [credentials.File] (it fills the struct it is given and answers one of
    its own errors or nil), the method [File.TokenSource] of the credentials
    package, and [filepath.Join]. *)
Variable json_Unmarshal : list byte -> File -> File * option JSONErr.
Variable File_TokenSource :
  File -> Context -> list string -> option FlowHandler -> string ->
  option TokenSource * option error.
Variable filepath_Join : list string -> string.

Definition credentialsFromJSON (ctx : Context) (jsonData : list byte)
    (scopes : list string) (handler : option FlowHandler) (state : string)
    : option Credentials * option error :=
  match json_Unmarshal jsonData File_zero with
  | (_, Some err) => (None, Some (JSONError err))
  | (f, None) =>
      match File_TokenSource f ctx scopes handler state with
      | (_, Some err) => (None, Some err)
      | (ts, None) =>
          (Some {| ProjectID := File_ProjectID f;
                   Creds_TokenSource := ts;
                   JSON := jsonData |}, None)
      end
  end.

Definition readCredentialsFile (ctx : Context) (filename : string)
    (settings : Settings) : M (option Credentials * option error) :=
  let* (b, err) := ioutil_ReadFile filename in
  match err with
  | Some err => ret (None, Some err)
  | None =>
      ret (credentialsFromJSON ctx b (strings_Split (Scope settings) " ")
             (OAuthFlowHandler settings) (State settings))
  end.

(** The pair [readCredentialsFile] answers in a world, apart from the
    access it logs. *)
Definition fileCredentials (ctx : Context) (filename : string)
    (settings : Settings) (w : World) : option Credentials * option error :=
  match readFile w filename with
  | (_, Some err) => (None, Some err)
  | (b, None) =>
      credentialsFromJSON ctx b (strings_Split (Scope settings) " ")
        (OAuthFlowHandler settings) (State settings)
  end.

Definition guessUnixHomeDir : M string :=
  let* v := os_Getenv "HOME" in
  if negb (String.eqb v "") then ret v
  else
    let* r := user_Current in
    match r with
    | inr u => ret (HomeDir u)
    | inl _ => ret ""
    end.

Definition wellKnownFile : M string :=
  let f := "application_default_credentials.json" in
  let* goos := global GOOS in
  if String.eqb goos "windows" then
    let* appdata := os_Getenv "APPDATA" in
    ret (filepath_Join [appdata; "gcloud"; f])
  else
    let* home := guessUnixHomeDir in
    ret (filepath_Join [home; ".config"; "gcloud"; f]).

Definition envVar : string := "GOOGLE_APPLICATION_CREDENTIALS".

Definition url : string :=
  "https://developers.google.com/accounts/docs/application-default-credentials".

(** Lines 110 to 129 of [applicationDefaultCredentials]: the App Engine
    probe, the metadata probe and the final error. *)
Definition platformProbes (ctx : Context) (settings : Settings)
    : M (option Credentials * option error) :=
  let* tokenFunc := global appengineTokenFunc in
  let* flex := global appengineFlex in
  if bool_decide (tokenFunc <> None) && negb flex then
    let* appID := call_appengineAppIDFunc ctx in
    ret (Some {| ProjectID := appID;
                 Creds_TokenSource :=
                   Some (AppEngineTokenSource ctx (Scope settings));
                 JSON := [] |}, None)
  else
    let* on := metadata_OnGCE in
    if on then
      let* (id, _) := metadata_ProjectID in
      ret (Some {| ProjectID := id;
                   Creds_TokenSource := Some (ComputeTokenSource "");
                   JSON := [] |}, None)
    else
      ret (None,
           Some (fmt_Errorf
                   ("google: could not find default credentials. See " +:+ url
                    +:+ " for more information."))).

Definition applicationDefaultCredentials (ctx : Context) (settings : Settings)
    : M (option Credentials * option error) :=
  let* filename := os_Getenv envVar in
  if negb (String.eqb filename "") then
    let* (creds, err) := readCredentialsFile ctx filename settings in
    match err with
    | Some err =>
        ret (None,
             Some (fmt_Errorf
                     ("google: error getting credentials using " +:+ envVar
                      +:+ " environment variable: " +:+ Error err)))
    | None => ret (creds, None)
    end
  else
    let* filename := wellKnownFile in
    let* (creds, err) := readCredentialsFile ctx filename settings in
    match err with
    | None => ret (creds, None)
    | Some err =>
        if negb (os_IsNotExist err) then
          ret (None,
               Some (fmt_Errorf
                       ("google: error getting credentials using well-known file ("
                        +:+ filename +:+ "): " +:+ Error err)))
        else platformProbes ctx settings
    end.

Definition findJSONCredentials (ctx : Context) (settings : Settings)
    : M (option Credentials * option error) :=
  if negb (String.eqb (CredentialsJSON settings) "") then
    ret (credentialsFromJSON ctx
           (list_byte_of_string (CredentialsJSON settings))
           (strings_Split (Scope settings) " ")
           (OAuthFlowHandler settings) (State settings))
  else applicationDefaultCredentials ctx settings.

End Resolution.

(** ** The exported entry points of default.go *)

(** [internal.GrpcTokenSource{t}]: the per-RPC credentials that wrap a
    token source. *)
Inductive GrpcTokenSource : Type :=
| mkGrpcTokenSource (ts : option TokenSource).

(** A nil pointer dereference. *)
Definition panic {A : Type} : M A := fun _ => ([], Panic).

Section EntryPoints.

Variable json_Unmarshal : list byte -> File -> File * option JSONErr.
Variable File_TokenSource :
  File -> Context -> list string -> option FlowHandler -> string ->
  option TokenSource * option error.
Variable filepath_Join : list string -> string.

(** [credentials.JWTAccessTokenSourceFromJSON], of the credentials
    package: from the raw document and an audience to a token source or an
    error. *)
Variable JWTAccessTokenSourceFromJSON :
  list byte -> string -> option TokenSource * option error.

Definition DefaultTokenSource (ctx : Context) (scope : string)
    : M (option TokenSource * option error) :=
  let* (creds, err) :=
    applicationDefaultCredentials json_Unmarshal File_TokenSource filepath_Join
      ctx (mkSettings scope "" "" None "") in
  match err with
  | Some err => ret (None, Some err)
  | None =>
      match creds with
      | Some c => ret (Creds_TokenSource c, None)
      | None => panic
      end
  end.

(** The three entry points below are handed the caller's pointer to the
    settings, which may be nil: [None].  None of them tests it.
    [OAuthJSONTokenSource] and [JWTTokenSource] pass it to
    [findJSONCredentials], whose first step reads [settings.CredentialsJSON]
    (line 83); [NewGrpcApplicationDefault] reads [settings.Scope] at once
    (line 63).  On a nil pointer each panics there, before any access. *)
Definition OAuthJSONTokenSource (ctx : Context) (settings : option Settings)
    : M (option TokenSource * option error) :=
  match settings with
  | None => panic
  | Some settings =>
      let* (creds, err) :=
        findJSONCredentials json_Unmarshal File_TokenSource filepath_Join
          ctx settings in
      match err with
      | Some err => ret (None, Some err)
      | None =>
          match creds with
          | Some c => ret (Creds_TokenSource c, None)
          | None => panic
          end
      end
  end.

Definition JWTTokenSource (ctx : Context) (settings : option Settings)
    : M (option TokenSource * option error) :=
  match settings with
  | None => panic
  | Some settings =>
      let* (creds, err) :=
        findJSONCredentials json_Unmarshal File_TokenSource filepath_Join
          ctx settings in
      match err with
      | Some err => ret (None, Some err)
      | None =>
          match creds with
          | Some c =>
              ret (JWTAccessTokenSourceFromJSON (JSON c) (Audience settings))
          | None => panic
          end
      end
  end.

Definition NewGrpcApplicationDefault (ctx : Context)
    (settings : option Settings)
    : M (option GrpcTokenSource * option error) :=
  match settings with
  | None => panic
  | Some settings =>
      let* (t, err) := DefaultTokenSource ctx (Scope settings) in
      match err with
      | Some err => ret (None, Some err)
      | None => ret (Some (mkGrpcTokenSource t), None)
      end
  end.

Definition NewGrpcJWT (ctx : Context) (aud : string)
    : M (option GrpcTokenSource * option error) :=
  let* (creds, err) :=
    applicationDefaultCredentials json_Unmarshal File_TokenSource filepath_Join
      ctx (mkSettings "" "" "" None "") in
  match creds with
  | Some c =>
      match JWTAccessTokenSourceFromJSON (JSON c) aud with
      | (_, Some err) => ret (None, Some err)
      | (ts, None) => ret (Some (mkGrpcTokenSource ts), None)
      end
  | None => ret (None, err)
  end.

End EntryPoints.

(** Whether an access is a file read. *)
Definition isReadFile (ev : Event) : bool :=
  match ev with
  | EvReadFile _ => true
  | _ => false
  end.

(** Whether a character occurs in a string. *)
Fixpoint occurs (c : ascii) (s : string) : bool :=
  match s with
  | EmptyString => false
  | String a s' => Ascii.eqb a c || occurs c s'
  end.

(** ** The credentials package's dispatch on the document kind *)

Inductive CredentialKind : Type := ServiceAccountKey | UserCredentialsKey.

(** The discriminator: the [type] field of the document. *)
Definition credentialKind (t : string) : option CredentialKind :=
  if String.eqb t "service_account" then Some ServiceAccountKey
  else if String.eqb t "authorized_user" then Some UserCredentialsKey
  else None.

Section DocumentTokenSource.

(** The consent flow's two network-facing steps: the authorization URL
    for the scopes and state, and the exchange of the code for a refresh
    token. *)
Variable authCodeURL : File -> list string -> string -> string.
Variable exchange : File -> Context -> string -> string * option error.

(** Modelled from the spec: the method [File.TokenSource] of the
    credentials package, which is not part of default.go.  Section 4.3:
    dispatch on the kind; a service account gives a JWT-signing source for
    the scopes; a user document gives a refresh-token source, after a
    consent exchange when it has no refresh token and a callback was
    supplied.  Section 3: a missing or unknown discriminator is a parse
    error, not a default. *)
Definition File_TokenSource_spec (f : File) (ctx : Context)
    (scopes : list string) (handler : option FlowHandler) (state : string)
    : option TokenSource * option error :=
  match credentialKind (File_Type f) with
  | Some ServiceAccountKey =>
      (Some (JWTConfigTokenSource (File_ClientEmail f) (File_PrivateKey f)
               scopes), None)
  | Some UserCredentialsKey =>
      if negb (String.eqb (File_RefreshToken f) "") then
        (Some (RefreshTokenSource (File_ClientID f) (File_ClientSecret f)
                 (File_RefreshToken f)), None)
      else
        match handler with
        | None =>
            (Some (RefreshTokenSource (File_ClientID f) (File_ClientSecret f)
                     ""), None)
        | Some h =>
            match h (authCodeURL f scopes state) with
            | (_, Some err) => (None, Some err)
            | (code, None) =>
                match exchange f ctx code with
                | (_, Some err) => (None, Some err)
                | (token, None) =>
                    (Some (RefreshTokenSource (File_ClientID f)
                             (File_ClientSecret f) token), None)
                end
            end
        end
  | None =>
      if String.eqb (File_Type f) "" then
        (None, Some (errorString "missing 'type' field in credentials"))
      else
        (None, Some (errorString
                       ("unknown credential type: " +:+ File_Type f)))
  end.

End DocumentTokenSource.

(** ** Sample collaborators and worlds

    Concrete stand-ins for the library calls, on which the functions above
    can be run. *)

Definition dquote : ascii := "034"%char.

Definition quoted (s : string) : string :=
  String dquote s +:+ String dquote "".

(** The service-account document of the spec's scenario. *)
Definition sample_document : string :=
  "{" +:+ quoted "type" +:+ ":" +:+ quoted "service_account" +:+ ","
  +:+ quoted "project_id" +:+ ":" +:+ quoted "p1" +:+ ","
  +:+ quoted "client_email" +:+ ":" +:+ quoted "a@b" +:+ ","
  +:+ quoted "private_key" +:+ ":" +:+ quoted "..." +:+ "}".

(** The same document without its [type] field. *)
Definition sample_untyped_document : string :=
  "{" +:+ quoted "project_id" +:+ ":" +:+ quoted "p1" +:+ "}".

Definition setField (key value : string) (f : File) : File :=
  if String.eqb key "type" then
    mkFile value (File_ProjectID f) (File_ClientEmail f) (File_PrivateKey f)
      (File_ClientID f) (File_ClientSecret f) (File_RefreshToken f)
  else if String.eqb key "project_id" then
    mkFile (File_Type f) value (File_ClientEmail f) (File_PrivateKey f)
      (File_ClientID f) (File_ClientSecret f) (File_RefreshToken f)
  else if String.eqb key "client_email" then
    mkFile (File_Type f) (File_ProjectID f) value (File_PrivateKey f)
      (File_ClientID f) (File_ClientSecret f) (File_RefreshToken f)
  else if String.eqb key "private_key" then
    mkFile (File_Type f) (File_ProjectID f) (File_ClientEmail f) value
      (File_ClientID f) (File_ClientSecret f) (File_RefreshToken f)
  else if String.eqb key "client_id" then
    mkFile (File_Type f) (File_ProjectID f) (File_ClientEmail f)
      (File_PrivateKey f) value (File_ClientSecret f) (File_RefreshToken f)
  else if String.eqb key "client_secret" then
    mkFile (File_Type f) (File_ProjectID f) (File_ClientEmail f)
      (File_PrivateKey f) (File_ClientID f) value (File_RefreshToken f)
  else if String.eqb key "refresh_token" then
    mkFile (File_Type f) (File_ProjectID f) (File_ClientEmail f)
      (File_PrivateKey f) (File_ClientID f) (File_ClientSecret f) value
  else f.

(** The members of a flat object, cut at the quotes: key, colon, value,
    then a comma and more members, or the closing brace. *)
Fixpoint sample_members (pieces : list string) (f : File)
    : File * option JSONErr :=
  match pieces with
  | key :: colon :: value :: sep :: rest =>
      if String.eqb colon ":" then
        if String.eqb sep "," then sample_members rest (setField key value f)
        else if String.eqb sep "}" then
          match rest with
          | [] => (setField key value f, None)
          | _ => (f, Some (SyntaxError "invalid character after top-level value"))
          end
        else (f, Some (SyntaxError "invalid character after object key:value pair"))
      else (f, Some (SyntaxError "invalid character after object key"))
  | _ => (f, Some (SyntaxError "unexpected end of JSON input"))
  end.

(** A decoder for flat objects of string members without escapes or
    blanks, which is all the sample documents need. *)
Definition sample_Unmarshal (data : list byte) (f : File)
    : File * option JSONErr :=
  match strings_Split (string_of_list_byte data) dquote with
  | [whole] =>
      if String.eqb whole "{}" then (f, None)
      else (f, Some (SyntaxError "invalid character looking for beginning of value"))
  | open :: rest =>
      if String.eqb open "{" then sample_members rest f
      else (f, Some (SyntaxError "invalid character looking for beginning of value"))
  | [] => (f, Some (SyntaxError "unexpected end of JSON input"))
  end.

Definition sample_TokenSource :
    File -> Context -> list string -> option FlowHandler -> string ->
    option TokenSource * option error :=
  File_TokenSource_spec
    (fun _ _ state => "https://accounts.example/auth?state=" +:+ state)
    (fun _ _ code => ("refresh-" +:+ code, None)).

(** Joining with slashes, empty elements left out. *)
Definition sample_Join (elem : list string) : string :=
  String.concat "/" (List.filter (fun s => negb (String.eqb s "")) elem).

Definition sample_settings : Settings :=
  mkSettings "scope-a" "" "" None "".

Definition sample_explicit_settings : Settings :=
  mkSettings "scope-a" "" sample_document None "".

Definition canceled_context : Context := mkContext (Some Canceled).

(** A Unix machine with nothing on it: no variables, no files, no user
    database, no hooks, no metadata server. *)
Definition bare_world : World :=
  mkWorld ∅ ∅ "linux" (inl (errorString "user: Current not implemented"))
    None None false false ("", Some (errorString "not on GCE")).

(** The variable points at a file that is not there. *)
Definition world_env_missing : World :=
  mkWorld {[ envVar := "/nonexistent/path" ]} ∅ "linux"
    (inr (mkUser "/home/u")) None None false false
    ("", Some (errorString "not on GCE")).

(** A well-known file that exists and cannot be read. *)
Definition world_wellknown_unreadable : World :=
  mkWorld {[ "HOME" := "/home/u" ]}
    {[ "/home/u/.config/gcloud/application_default_credentials.json" :=
         inl EACCES ]}
    "linux" (inr (mkUser "/home/u")) None None false false
    ("", Some (errorString "not on GCE")).

(** HOME names a regular file, so nothing can be below it: opening the
    well-known path answers ENOTDIR. *)
Definition world_home_is_file : World :=
  mkWorld {[ "HOME" := "/home/u" ]}
    {[ "/home/u" := inr [];
       "/home/u/.config/gcloud/application_default_credentials.json" :=
         inl ENOTDIR ]}
    "linux" (inr (mkUser "/home/u")) None None false false
    ("", Some (errorString "not on GCE")).

(** A well-known file holding the sample document. *)
Definition world_wellknown_document : World :=
  mkWorld {[ "HOME" := "/home/u" ]}
    {[ "/home/u/.config/gcloud/application_default_credentials.json" :=
         inr (list_byte_of_string sample_document) ]}
    "linux" (inr (mkUser "/home/u")) None None false false
    ("", Some (errorString "not on GCE")).

Definition sample_tokenFunc : TokenFunc :=
  fun _ _ => ("token", None).

(** App Engine standard: both hooks set. *)
Definition world_appengine : World :=
  mkWorld ∅ ∅ "linux" (inr (mkUser "/home/u"))
    (Some sample_tokenFunc) (Some (fun _ => "app-1")) false false
    ("", Some (errorString "not on GCE")).

(** App Engine flexible on a machine with a metadata server. *)
Definition world_appengine_flex : World :=
  mkWorld ∅ ∅ "linux" (inr (mkUser "/home/u"))
    (Some sample_tokenFunc) (Some (fun _ => "app-1")) true true
    ("project-7", None).

(** The token hook set and the application id hook left nil. *)
Definition world_token_hook_only : World :=
  mkWorld ∅ ∅ "linux" (inr (mkUser "/home/u"))
    (Some sample_tokenFunc) None false false
    ("", Some (errorString "not on GCE")).

(** Windows, with the application data directory set. *)
Definition world_windows : World :=
  mkWorld {[ "APPDATA" := "C:/Users/u/AppData" ]} ∅ "windows"
    (inr (mkUser "C:/Users/u")) None None false false
    ("", Some (errorString "not on GCE")).

Definition sample_ADC : Context -> Settings -> M (option Credentials * option error) :=
  applicationDefaultCredentials sample_Unmarshal sample_TokenSource sample_Join.

Definition sample_find : Context -> Settings -> M (option Credentials * option error) :=
  findJSONCredentials sample_Unmarshal sample_TokenSource sample_Join.

(** A stand-in for the JWT access source: it needs a document. *)
Definition sample_JWTAccess (jsonData : list byte) (aud : string)
    : option TokenSource * option error :=
  match jsonData with
  | [] => (None, Some (errorString "unexpected end of JSON input"))
  | _ => (Some (JWTConfigTokenSource "a@b" "..." [aud]), None)
  end.

Definition sample_DefaultTokenSource :
    Context -> string -> M (option TokenSource * option error) :=
  DefaultTokenSource sample_Unmarshal sample_TokenSource sample_Join.

Definition sample_OAuthJSONTokenSource :
    Context -> option Settings -> M (option TokenSource * option error) :=
  OAuthJSONTokenSource sample_Unmarshal sample_TokenSource sample_Join.

Definition sample_JWTTokenSource :
    Context -> option Settings -> M (option TokenSource * option error) :=
  JWTTokenSource sample_Unmarshal sample_TokenSource sample_Join
    sample_JWTAccess.

Definition sample_NewGrpcApplicationDefault :
    Context -> option Settings -> M (option GrpcTokenSource * option error) :=
  NewGrpcApplicationDefault sample_Unmarshal sample_TokenSource sample_Join.

Definition sample_NewGrpcJWT :
    Context -> string -> M (option GrpcTokenSource * option error) :=
  NewGrpcJWT sample_Unmarshal sample_TokenSource sample_Join sample_JWTAccess.

(** The credentials the sample document gives for the sample scope. *)
Definition sample_credentials : Credentials :=
  {| ProjectID := "p1";
     Creds_TokenSource := Some (JWTConfigTokenSource "a@b" "..." ["scope-a"]);
     JSON := list_byte_of_string sample_document |}.

(** A Compute Engine machine: a metadata server whose project id lookup
    fails. *)
Definition world_gce : World :=
  mkWorld ∅ ∅ "linux" (inr (mkUser "/home/u")) None None false true
    ("", Some (errorString "metadata: project id unavailable")).

(** The variable points at a file holding the sample document, beside a
    well-known file holding something else. *)
Definition world_env_document : World :=
  mkWorld {[ envVar := "/etc/key.json"; "HOME" := "/home/u" ]}
    {[ "/etc/key.json" := inr (list_byte_of_string sample_document);
       "/home/u/.config/gcloud/application_default_credentials.json" :=
         inr (list_byte_of_string sample_untyped_document) ]}
    "linux" (inr (mkUser "/home/u")) None None false true
    ("project-7", None).

(** App Engine standard on a machine that also has a metadata server. *)
Definition world_appengine_gce : World :=
  mkWorld ∅ ∅ "linux" (inr (mkUser "/home/u"))
    (Some sample_tokenFunc) (Some (fun _ => "app-1")) false true
    ("project-7", None).

(** The well-known path without a home directory, and under /home/u. *)
Definition wellKnown_unix : string :=
  ".config/gcloud/application_default_credentials.json".

Definition wellKnown_home : string :=
  "/home/u/.config/gcloud/application_default_credentials.json".

(** The two fatal messages and the final one. *)
Definition envVarMessage (err : error) : string :=
  "google: error getting credentials using " +:+ envVar
  +:+ " environment variable: " +:+ Error err.

Definition wellKnownMessage (filename : string) (err : error) : string :=
  "google: error getting credentials using well-known file (" +:+ filename
  +:+ "): " +:+ Error err.

Definition notFoundMessage : string :=
  "google: could not find default credentials. See " +:+ url
  +:+ " for more information.".

(** ** The functions at the sample worlds *)

Example strings_Split_scopes :
  strings_Split "scope-a scope-b" " " = ["scope-a"; "scope-b"].
Proof. reflexivity. Qed.

Example strings_Split_empty : strings_Split "" " " = [""].
Proof. reflexivity. Qed.

Example strings_Split_blanks : strings_Split " a  b" " " = [""; "a"; ""; "b"].
Proof. reflexivity. Qed.

Example wellKnownFile_windows :
  wellKnownFile sample_Join world_windows =
    ([EvGetenv "APPDATA"],
     Val "C:/Users/u/AppData/gcloud/application_default_credentials.json").
Proof. reflexivity. Qed.

Example wellKnownFile_without_home :
  wellKnownFile sample_Join bare_world =
    ([EvGetenv "HOME"; EvUserCurrent], Val wellKnown_unix).
Proof. reflexivity. Qed.

Example wellKnownFile_user_home :
  wellKnownFile sample_Join world_appengine =
    ([EvGetenv "HOME"; EvUserCurrent], Val wellKnown_home).
Proof. reflexivity. Qed.

(** The scenario of the spec: an explicit service-account document. *)
Example explicit_document_scenario :
  sample_find context_Background sample_explicit_settings world_env_missing =
    ([],
     Val (Some {| ProjectID := "p1";
                  Creds_TokenSource :=
                    Some (JWTConfigTokenSource "a@b" "..." ["scope-a"]);
                  JSON := list_byte_of_string sample_document |}, None)).
Proof. reflexivity. Qed.

Example well_known_document_found :
  sample_ADC context_Background sample_settings world_wellknown_document =
    ([EvGetenv envVar; EvGetenv "HOME"; EvReadFile wellKnown_home],
     Val (Some {| ProjectID := "p1";
                  Creds_TokenSource :=
                    Some (JWTConfigTokenSource "a@b" "..." ["scope-a"]);
                  JSON := list_byte_of_string sample_document |}, None)).
Proof. reflexivity. Qed.

Example appengine_standard :
  sample_ADC context_Background sample_settings world_appengine =
    ([EvGetenv envVar; EvGetenv "HOME"; EvUserCurrent;
      EvReadFile wellKnown_home; EvAppID context_Background],
     Val (Some {| ProjectID := "app-1";
                  Creds_TokenSource :=
                    Some (AppEngineTokenSource context_Background "scope-a");
                  JSON := [] |}, None)).
Proof. reflexivity. Qed.

(** ** Properties *)

(** Unfolding of the monad's operations and of the library calls. *)
Ltac unfold_monad :=
  unfold bind, ret, global, os_Getenv, ioutil_ReadFile, user_Current,
    metadata_OnGCE, metadata_ProjectID, call_appengineAppIDFunc,
    trace, result in *.

Lemma append_empty_r (s : string) : s +:+ "" = s.
Proof.
  induction s as [|a s IH]; [reflexivity|].
  change (String a (s +:+ "") = String a s). f_equal. exact IH.
Qed.

Lemma append_cons (a : ascii) (s t : string) :
  String a s +:+ t = String a (s +:+ t).
Proof. reflexivity. Qed.

Lemma substring_append (pre s post : string) :
  substring (String.length pre) (String.length s) (pre +:+ s +:+ post) = s.
Proof.
  induction pre as [|a pre IH].
  - change ("" +:+ s +:+ post) with (s +:+ post).
    induction s as [|b s IHs].
    + destruct post; reflexivity.
    + rewrite append_cons. cbn [String.length substring]. f_equal. exact IHs.
  - rewrite append_cons. cbn [String.length substring]. exact IH.
Qed.

(** An occurrence is found by [index]. *)
Lemma contains_index (s t : string) :
  s <> "" -> contains s t -> index 0 s t <> None.
Proof.
  intros Hs (pre & post & ->) Hnone.
  apply (index_correct3 0 (String.length pre)) in Hnone; [|exact Hs|lia].
  apply Hnone, substring_append.
Qed.

Section Properties.

Variable json_Unmarshal : list byte -> File -> File * option JSONErr.
Variable File_TokenSource :
  File -> Context -> list string -> option FlowHandler -> string ->
  option TokenSource * option error.
Variable filepath_Join : list string -> string.

Local Abbreviation parse := (credentialsFromJSON json_Unmarshal File_TokenSource).
Local Abbreviation readCreds := (readCredentialsFile json_Unmarshal File_TokenSource).
Local Abbreviation fileCreds := (fileCredentials json_Unmarshal File_TokenSource).
Local Abbreviation wellKnown := (wellKnownFile filepath_Join).
Local Abbreviation ADC :=
  (applicationDefaultCredentials json_Unmarshal File_TokenSource filepath_Join).
Local Abbreviation find :=
  (findJSONCredentials json_Unmarshal File_TokenSource filepath_Join).

(** *** The well-known location *)

Lemma guessUnixHomeDir_run (w : World) :
  guessUnixHomeDir w =
    if negb (String.eqb (getenv w "HOME") "")
    then ([EvGetenv "HOME"], Val (getenv w "HOME"))
    else ([EvGetenv "HOME"; EvUserCurrent],
          Val match currentUser w with inr u => HomeDir u | inl _ => "" end).
Proof.
  unfold guessUnixHomeDir. unfold_monad.
  destruct (negb (String.eqb (getenv w "HOME") "")); [reflexivity|].
  destruct (currentUser w); reflexivity.
Qed.

Lemma wellKnownFile_total (w : World) :
  exists (t : list Event) (filename : string), wellKnown w = (t, Val filename).
Proof.
  unfold wellKnownFile. unfold_monad.
  destruct (String.eqb (GOOS w) "windows"); [eauto|].
  rewrite guessUnixHomeDir_run.
  destruct (negb (String.eqb (getenv w "HOME") "")); eauto.
Qed.

(** C8. [wellKnownFile] always returns a path: on Windows the join of
    APPDATA, gcloud and the file name; elsewhere the join of the home
    directory, .config, gcloud and the file name, where the home directory
    is HOME when that is not empty, else the home directory of the current
    user when the lookup succeeds, else the empty string. *)
Theorem wellKnownFile_path (w : World) :
  exists home : string,
    ((getenv w "HOME" <> "" /\ home = getenv w "HOME") \/
     (getenv w "HOME" = "" /\
      exists u, currentUser w = inr u /\ home = HomeDir u) \/
     (getenv w "HOME" = "" /\
      (exists e, currentUser w = inl e) /\ home = "")) /\
    result (guessUnixHomeDir w) = Val home /\
    result (wellKnown w) =
      Val (if String.eqb (GOOS w) "windows"
           then filepath_Join [getenv w "APPDATA"; "gcloud";
                               "application_default_credentials.json"]
           else filepath_Join [home; ".config"; "gcloud";
                               "application_default_credentials.json"]).
Proof.
  unfold wellKnownFile. unfold bind at 1. unfold global.
  rewrite guessUnixHomeDir_run.
  destruct (String.eqb (getenv w "HOME") "") eqn:Hhome; simpl negb; cbv iota.
  - apply String.eqb_eq in Hhome.
    destruct (currentUser w) as [e|u] eqn:Hu.
    + exists "". split; [right; right; eauto|].
      split; [reflexivity|].
      destruct (String.eqb (GOOS w) "windows"); unfold_monad;
        try rewrite guessUnixHomeDir_run; rewrite ?Hhome, ?Hu; reflexivity.
    + exists (HomeDir u). split; [right; left; eauto|].
      split; [reflexivity|].
      destruct (String.eqb (GOOS w) "windows"); unfold_monad;
        try rewrite guessUnixHomeDir_run; rewrite ?Hhome, ?Hu; reflexivity.
  - apply String.eqb_neq in Hhome.
    exists (getenv w "HOME"). split; [left; auto|].
    split; [reflexivity|].
    apply String.eqb_neq in Hhome.
    destruct (String.eqb (GOOS w) "windows"); unfold_monad;
      try rewrite guessUnixHomeDir_run; rewrite ?Hhome; reflexivity.
Qed.

(** *** Explicit configuration *)

(** C1. With a non-empty [CredentialsJSON], [findJSONCredentials] parses
    that document and nothing else: it makes no access to the world, and
    two runs in any two worlds give the same answer. *)
Theorem findJSONCredentials_explicit
    (ctx : Context) (settings : Settings) (w1 w2 : World) :
  CredentialsJSON settings <> "" ->
  find ctx settings w1 = find ctx settings w2 /\
  trace (find ctx settings w1) = [] /\
  result (find ctx settings w1) =
    Val (parse ctx (list_byte_of_string (CredentialsJSON settings))
           (strings_Split (Scope settings) " ")
           (OAuthFlowHandler settings) (State settings)).
Proof.
  intros Hjson. apply String.eqb_neq in Hjson.
  unfold findJSONCredentials. rewrite Hjson. simpl negb. cbv iota.
  repeat split.
Qed.

(** *** How the chain runs *)

Lemma readCredentialsFile_run
    (ctx : Context) (filename : string) (settings : Settings) (w : World) :
  readCreds ctx filename settings w =
    ([EvReadFile filename], Val (fileCreds ctx filename settings w)).
Proof.
  unfold readCredentialsFile, fileCredentials. unfold_monad.
  destruct (readFile w filename) as [b [err|]]; reflexivity.
Qed.

Lemma readCredentialsFile_result
    (ctx : Context) (filename : string) (settings : Settings) (w : World)
    (r : option Credentials * option error) :
  result (readCreds ctx filename settings w) = Val r <->
  fileCreds ctx filename settings w = r.
Proof.
  rewrite readCredentialsFile_run. unfold result. cbn [snd].
  split; [intros H; injection H as H; exact H | intros ->; reflexivity].
Qed.

Lemma parse_nil_or_error
    (ctx : Context) (b : list byte) (scopes : list string)
    (handler : option FlowHandler) (state : string) :
  (exists c, parse ctx b scopes handler state = (Some c, None)) \/
  (exists err, parse ctx b scopes handler state = (None, Some err)).
Proof.
  unfold credentialsFromJSON.
  destruct (json_Unmarshal b File_zero) as [f [je|]]; [right; eauto|].
  destruct (File_TokenSource f ctx scopes handler state) as [ts [e|]];
    [right; eauto | left; eauto].
Qed.

Lemma fileCredentials_nil_or_error
    (ctx : Context) (filename : string) (settings : Settings) (w : World) :
  (exists c, fileCreds ctx filename settings w = (Some c, None)) \/
  (exists err, fileCreds ctx filename settings w = (None, Some err)).
Proof.
  unfold fileCredentials.
  destruct (readFile w filename) as [b [err|]]; [right; eauto|].
  apply parse_nil_or_error.
Qed.

Lemma platformProbes_run (ctx : Context) (settings : Settings) (w : World) :
  platformProbes ctx settings w =
    if bool_decide (appengineTokenFunc w <> None) && negb (appengineFlex w)
    then match appengineAppIDFunc w with
         | Some f =>
             ([EvAppID ctx],
              Val (Some {| ProjectID := f ctx;
                           Creds_TokenSource :=
                             Some (AppEngineTokenSource ctx (Scope settings));
                           JSON := [] |}, None))
         | None => ([], Panic)
         end
    else if onGCE w
    then ([EvOnGCE; EvMetadataProjectID],
          Val (Some {| ProjectID := fst (metadataProjectID w);
                       Creds_TokenSource := Some (ComputeTokenSource "");
                       JSON := [] |}, None))
    else ([EvOnGCE], Val (None, Some (fmt_Errorf notFoundMessage))).
Proof.
  unfold platformProbes. unfold_monad. simpl.
  destruct (bool_decide (appengineTokenFunc w <> None) && negb (appengineFlex w)).
  - destruct (appengineAppIDFunc w); reflexivity.
  - destruct (onGCE w); [|reflexivity].
    destruct (metadataProjectID w); reflexivity.
Qed.

(** The run when the environment variable names a file. *)
Lemma ADC_run_env_set (ctx : Context) (settings : Settings) (w : World) :
  getenv w envVar <> "" ->
  ADC ctx settings w =
    ([EvGetenv envVar; EvReadFile (getenv w envVar)],
     Val match fileCreds ctx (getenv w envVar) settings w with
         | (_, Some err) => (None, Some (fmt_Errorf (envVarMessage err)))
         | (creds, None) => (creds, None)
         end).
Proof.
  intros Hset. apply String.eqb_neq in Hset.
  unfold applicationDefaultCredentials. unfold bind at 1. unfold os_Getenv at 1.
  rewrite Hset. cbn [negb]. cbv beta iota.
  unfold bind. rewrite readCredentialsFile_run.
  destruct (fileCreds ctx (getenv w envVar) settings w) as [c [err|]];
    reflexivity.
Qed.

(** The run when it does not. *)
Lemma ADC_run_env_unset
    (ctx : Context) (settings : Settings) (w : World)
    (t : list Event) (filename : string) :
  getenv w envVar = "" ->
  wellKnown w = (t, Val filename) ->
  ADC ctx settings w =
    match fileCreds ctx filename settings w with
    | (creds, None) =>
        (EvGetenv envVar :: t ++ [EvReadFile filename], Val (creds, None))
    | (_, Some err) =>
        if os_IsNotExist err
        then (EvGetenv envVar :: t ++ EvReadFile filename
                :: trace (platformProbes ctx settings w),
              result (platformProbes ctx settings w))
        else (EvGetenv envVar :: t ++ [EvReadFile filename],
              Val (None, Some (fmt_Errorf (wellKnownMessage filename err))))
    end.
Proof.
  intros Hunset Hwk.
  unfold applicationDefaultCredentials. unfold bind at 1. unfold os_Getenv at 1.
  rewrite Hunset. cbn [negb String.eqb]. cbv beta iota.
  unfold bind at 1. rewrite Hwk.
  unfold bind at 1. rewrite readCredentialsFile_run. unfold result, trace.
  destruct (fileCreds ctx filename settings w) as [c [err|]]; [|reflexivity].
  destruct (os_IsNotExist err); cbn [negb]; cbv beta iota; [|reflexivity].
  destruct (platformProbes ctx settings w) as [t' o]. reflexivity.
Qed.

(** *** The environment-variable probe *)

(** C2. When GOOGLE_APPLICATION_CREDENTIALS names a file and reading or
    parsing it fails, the chain stops there: its only accesses are the
    variable and that file, and it returns nil credentials with an error
    whose message names the variable and carries the cause.  A file that
    does not exist is such a failure. *)
Theorem env_var_failure_is_fatal
    (ctx : Context) (settings : Settings) (w : World) (filename : string) :
  getenv w envVar = filename ->
  filename <> "" ->
  (forall c err,
     result (readCreds ctx filename settings w) = Val (c, Some err) ->
     exists msg,
       ADC ctx settings w =
         ([EvGetenv envVar; EvReadFile filename],
          Val (None, Some (fmt_Errorf msg))) /\
       contains envVar msg /\ contains (Error err) msg) /\
  (files w !! filename = None ->
   exists err,
     result (readCreds ctx filename settings w) = Val (None, Some err) /\
     os_IsNotExist err = true).
Proof.
  intros Hname Hset. subst filename. split.
  - intros c err Hread. exists (envVarMessage err).
    apply readCredentialsFile_result in Hread.
    rewrite (ADC_run_env_set ctx settings w Hset), Hread.
    split; [reflexivity|]. split.
    + exists "google: error getting credentials using ",
        (" environment variable: " +:+ Error err).
      reflexivity.
    + exists ("google: error getting credentials using " +:+ envVar
              +:+ " environment variable: "), "".
      rewrite append_empty_r. reflexivity.
  - intros Habsent. exists (PathError "open" (getenv w envVar) ENOENT).
    rewrite readCredentialsFile_result. unfold fileCredentials, readFile.
    rewrite Habsent. split; reflexivity.
Qed.

(** *** The well-known file probe *)

(** C3. With the variable unset, an error of the well-known file probe for
    which [os.IsNotExist] holds makes the chain go on with the remaining
    probes; any other error is returned at once, wrapped with the path of
    the file.  A path with no entry gives a does-not-exist error; an unreadable
    file and a document that does not decode give errors that are not. *)
Theorem well_known_file_errors
    (ctx : Context) (settings : Settings) (w : World) (filename : string)
    (c : option Credentials) (err : error) :
  getenv w envVar = "" ->
  result (wellKnown w) = Val filename ->
  result (readCreds ctx filename settings w) = Val (c, Some err) ->
  (os_IsNotExist err = true ->
   ADC ctx settings w =
     (((EvGetenv envVar :: trace (wellKnown w) ++ [EvReadFile filename])
         ++ trace (platformProbes ctx settings w))%list,
      result (platformProbes ctx settings w))) /\
  (os_IsNotExist err = false ->
   ADC ctx settings w =
     ((EvGetenv envVar :: trace (wellKnown w) ++ [EvReadFile filename])%list,
      Val (None, Some (fmt_Errorf (wellKnownMessage filename err)))) /\
   contains filename (wellKnownMessage filename err)) /\
  (files w !! filename = None -> os_IsNotExist err = true) /\
  (forall errno,
     files w !! filename = Some (inl errno) -> errno <> ENOENT ->
     os_IsNotExist err = false) /\
  (forall b f je,
     files w !! filename = Some (inr b) ->
     json_Unmarshal b File_zero = (f, Some je) ->
     os_IsNotExist err = false).
Proof.
  intros Hunset Hpath Hread.
  destruct (wellKnownFile_total w) as (t & fn & Hwk).
  rewrite Hwk in Hpath |- *. unfold result, trace in Hpath |- *.
  cbn [fst snd] in Hpath |- *. injection Hpath as ->.
  pose proof (ADC_run_env_unset ctx settings w t filename Hunset Hwk) as Hrun.
  apply readCredentialsFile_result in Hread. rewrite Hread in Hrun.
  unfold fileCredentials, readFile in Hread.
  split; [|split; [|split; [|split]]].
  - intros Hne. rewrite Hne in Hrun. rewrite Hrun. unfold trace, result.
    cbn. rewrite <- app_assoc. reflexivity.
  - intros Hother. rewrite Hother in Hrun. split; [exact Hrun|].
    exists "google: error getting credentials using well-known file (",
      ("): " +:+ Error err).
    reflexivity.
  - intros Habsent. rewrite Habsent in Hread.
    injection Hread as _ <-. reflexivity.
  - intros errno Hfile Herrno. rewrite Hfile in Hread.
    injection Hread as _ <-. destruct errno; [contradiction|reflexivity..].
  - intros b f je Hfile Hjson. rewrite Hfile in Hread.
    unfold credentialsFromJSON in Hread. rewrite Hjson in Hread.
    injection Hread as _ <-. reflexivity.
Qed.

(** *** No probe succeeds *)

(** Credentials and error are never both nil and never both set. *)
Lemma ADC_credentials_xor_error
    (ctx : Context) (settings : Settings) (w : World)
    (c : option Credentials) (e : option error) :
  result (ADC ctx settings w) = Val (c, e) ->
  (c = None /\ e <> None) \/ (c <> None /\ e = None).
Proof.
  intros Hres.
  destruct (String.eqb (getenv w envVar) "") eqn:Hset.
  - apply String.eqb_eq in Hset.
    destruct (wellKnownFile_total w) as (t & fn & Hwk).
    rewrite (ADC_run_env_unset ctx settings w t fn Hset Hwk) in Hres.
    destruct (fileCredentials_nil_or_error ctx fn settings w)
      as [[c0 Hc]|[err Herr]].
    + rewrite Hc in Hres. unfold result in Hres. cbn in Hres.
      injection Hres as <- <-. right. split; congruence.
    + rewrite Herr in Hres. destruct (os_IsNotExist err).
      * unfold result in Hres. cbn [snd] in Hres.
        rewrite platformProbes_run in Hres.
        destruct (bool_decide (appengineTokenFunc w <> None)
                  && negb (appengineFlex w)).
        -- destruct (appengineAppIDFunc w); cbn in Hres; [|discriminate].
           injection Hres as <- <-. right. split; congruence.
        -- destruct (onGCE w); cbn in Hres; injection Hres as <- <-;
             [right | left]; split; congruence.
      * unfold result in Hres. cbn in Hres. injection Hres as <- <-.
        left. split; congruence.
  - apply String.eqb_neq in Hset.
    rewrite (ADC_run_env_set ctx settings w Hset) in Hres.
    destruct (fileCredentials_nil_or_error ctx (getenv w envVar) settings w)
      as [[c0 Hc]|[err Herr]].
    + rewrite Hc in Hres. unfold result in Hres. cbn in Hres.
      injection Hres as <- <-. right. split; congruence.
    + rewrite Herr in Hres. unfold result in Hres. cbn in Hres.
      injection Hres as <- <-. left. split; congruence.
Qed.

(** C4 (as amended). With the variable unset, the reading of the
    well-known file answering a does-not-exist error, the App Engine hook
    nil or switched off by the flex flag, and no metadata server, the chain
    returns nil credentials and one error, which says that default
    credentials could not be found and gives the documentation URL.  In no
    state at all does the chain return credentials together with an
    error. *)
Theorem exhausted_chain_reports_not_found
    (ctx : Context) (settings : Settings) (w : World) (filename : string)
    (err : error) :
  getenv w envVar = "" ->
  result (wellKnown w) = Val filename ->
  snd (readFile w filename) = Some err ->
  os_IsNotExist err = true ->
  appengineTokenFunc w = None \/ appengineFlex w = true ->
  onGCE w = false ->
  (exists msg,
     result (ADC ctx settings w) = Val (None, Some (fmt_Errorf msg)) /\
     contains "could not find default credentials" msg /\
     contains url msg) /\
  (forall ctx' settings' w' c e,
     result (ADC ctx' settings' w') = Val (Some c, Some e) -> False).
Proof.
  intros Hunset Hpath Hread Hnotexist Hhook Hgce. split.
  - exists notFoundMessage.
    destruct (wellKnownFile_total w) as (t & fn & Hwk).
    rewrite Hwk in Hpath. unfold result in Hpath. cbn in Hpath.
    injection Hpath as ->.
    rewrite (ADC_run_env_unset ctx settings w t filename Hunset Hwk).
    unfold fileCredentials.
    destruct (readFile w filename) as [b [e|]]; [|discriminate].
    cbn [snd] in Hread. injection Hread as ->. rewrite Hnotexist.
    unfold result. cbn [snd].
    rewrite platformProbes_run, Hgce.
    assert (bool_decide (appengineTokenFunc w <> None)
            && negb (appengineFlex w) = false) as ->.
    { destruct Hhook as [-> | ->].
      - rewrite bool_decide_eq_false_2; [reflexivity | intros H; apply H; reflexivity].
      - apply andb_false_r. }
    split; [reflexivity|]. split.
    + exists "google: ",
        (". See " +:+ url +:+ " for more information.").
      reflexivity.
    + exists "google: could not find default credentials. See ",
        " for more information.".
      reflexivity.
  - intros ctx' settings' w' c e Hres.
    destruct (ADC_credentials_xor_error ctx' settings' w' _ _ Hres)
      as [[? ?]|[? ?]]; congruence.
Qed.

(** *** The App Engine probe *)

Lemma wellKnownFile_trace (w : World) (ev : Event) :
  In ev (trace (wellKnown w)) ->
  ev = EvGetenv "APPDATA" \/ ev = EvGetenv "HOME" \/ ev = EvUserCurrent.
Proof.
  unfold wellKnownFile. unfold bind at 1. unfold global.
  destruct (String.eqb (GOOS w) "windows").
  - unfold_monad. cbn. intuition.
  - unfold bind. rewrite guessUnixHomeDir_run.
    destruct (negb (String.eqb (getenv w "HOME") "")); unfold ret, trace; cbn;
      intuition.
Qed.

(** A call of the application id hook, or a panic, happens only behind the
    guard of the probe. *)
Lemma appengine_probe_guard
    (ctx : Context) (settings : Settings) (w : World) :
  (exists ctx', In (EvAppID ctx') (trace (ADC ctx settings w))) \/
  result (ADC ctx settings w) = Panic ->
  appengineTokenFunc w <> None /\ appengineFlex w = false.
Proof.
  assert (Hguard :
    bool_decide (appengineTokenFunc w <> None) && negb (appengineFlex w) = true ->
    appengineTokenFunc w <> None /\ appengineFlex w = false).
  { intros H. apply andb_true_iff in H as [H1 H2].
    apply bool_decide_eq_true_1 in H1. apply negb_true_iff in H2. auto. }
  destruct (String.eqb (getenv w envVar) "") eqn:Hset.
  - apply String.eqb_eq in Hset.
    destruct (wellKnownFile_total w) as (t & fn & Hwk).
    rewrite (ADC_run_env_unset ctx settings w t fn Hset Hwk).
    assert (Ht : forall ctx', ~ In (EvAppID ctx') t).
    { intros ctx' Hin.
      pose proof (wellKnownFile_trace w (EvAppID ctx')) as Hev.
      rewrite Hwk in Hev. destruct (Hev Hin) as [?|[?|?]]; discriminate. }
    assert (Hpre : forall ctx' l,
      In (EvAppID ctx') (EvGetenv envVar :: t ++ EvReadFile fn :: l)%list ->
      In (EvAppID ctx') l).
    { intros ctx' l [Hin|Hin]; [discriminate|].
      apply in_app_or in Hin as [Hin|[Hin|Hin]];
        [destruct (Ht _ Hin) | discriminate | exact Hin]. }
    destruct (fileCredentials_nil_or_error ctx fn settings w)
      as [[c0 Hc]|[err Herr]].
    + rewrite Hc. unfold trace, result. cbn [fst snd].
      intros [[ctx' Hin]|Hp]; [|discriminate].
      apply Hpre in Hin. destruct Hin.
    + rewrite Herr. destruct (os_IsNotExist err).
      * unfold trace, result. cbn [fst snd]. rewrite platformProbes_run.
        destruct (bool_decide (appengineTokenFunc w <> None)
                  && negb (appengineFlex w)); [intros _; auto|].
        destruct (onGCE w); cbn [fst snd];
          (intros [[ctx' Hin]|Hp]; [|discriminate]);
          apply Hpre in Hin; cbn in Hin; intuition discriminate.
      * unfold trace, result. cbn [fst snd].
        intros [[ctx' Hin]|Hp]; [|discriminate].
        apply Hpre in Hin. destruct Hin.
  - apply String.eqb_neq in Hset.
    rewrite (ADC_run_env_set ctx settings w Hset). unfold trace, result.
    cbn [fst snd]. intros [[ctx' Hin]|Hp]; [|discriminate].
    cbn in Hin. intuition discriminate.
Qed.

(** C10. The App Engine probe is taken (the application id hook is called,
    or the call through it panics) only when the token hook is not nil and
    the flex flag is off.  With the flag on and the hook present, a chain
    that reaches the probe (variable unset, no entry for the well-known file) skips
    it and goes on to the metadata probe. *)
Theorem appengine_probe_gate
    (ctx : Context) (settings : Settings) (w : World) (filename : string) :
  ((exists ctx', In (EvAppID ctx') (trace (ADC ctx settings w))) \/
   result (ADC ctx settings w) = Panic ->
   appengineTokenFunc w <> None /\ appengineFlex w = false) /\
  (getenv w envVar = "" ->
   result (wellKnown w) = Val filename ->
   files w !! filename = None ->
   appengineTokenFunc w <> None ->
   appengineFlex w = true ->
   ADC ctx settings w =
     ((EvGetenv envVar :: trace (wellKnown w) ++ EvReadFile filename
         :: (if onGCE w then [EvOnGCE; EvMetadataProjectID] else [EvOnGCE]))%list,
      if onGCE w
      then Val (Some {| ProjectID := fst (metadataProjectID w);
                        Creds_TokenSource := Some (ComputeTokenSource "");
                        JSON := [] |}, None)
      else Val (None, Some (fmt_Errorf notFoundMessage)))).
Proof.
  split.
  - apply appengine_probe_guard.
  - intros Hunset Hpath Habsent Hhook Hflex.
    destruct (wellKnownFile_total w) as (t & fn & Hwk).
    rewrite Hwk in Hpath |- *. unfold result in Hpath. cbn in Hpath.
    injection Hpath as ->.
    rewrite (ADC_run_env_unset ctx settings w t filename Hunset Hwk).
    unfold fileCredentials, readFile. rewrite Habsent.
    cbn [os_IsNotExist]. unfold result, trace. cbn [fst snd].
    rewrite platformProbes_run, Hflex, andb_false_r.
    destruct (onGCE w); reflexivity.
Qed.

(** C9 (as amended). The probe checks one hook against nil, the token
    hook, together with the flex flag; the application id hook is called
    behind that guard without a check of its own.  So a call through a nil
    hook happens exactly in a state that passes the guard with the
    application id hook nil, and never when the application id hook is set
    wherever the token hook is. *)
Theorem appengine_hooks_checked_by_token_hook
    (ctx : Context) (settings : Settings) (w : World) :
  (result (ADC ctx settings w) = Panic ->
   appengineTokenFunc w <> None /\ appengineFlex w = false /\
   appengineAppIDFunc w = None) /\
  ((exists ctx', In (EvAppID ctx') (trace (ADC ctx settings w))) ->
   appengineTokenFunc w <> None /\ appengineFlex w = false /\
   appengineAppIDFunc w <> None) /\
  ((appengineTokenFunc w <> None -> appengineAppIDFunc w <> None) ->
   result (ADC ctx settings w) <> Panic).
Proof.
  assert (Hpanic : result (ADC ctx settings w) = Panic ->
                   appengineAppIDFunc w = None).
  { destruct (String.eqb (getenv w envVar) "") eqn:Hset.
    - apply String.eqb_eq in Hset.
      destruct (wellKnownFile_total w) as (t & fn & Hwk).
      rewrite (ADC_run_env_unset ctx settings w t fn Hset Hwk).
      destruct (fileCredentials_nil_or_error ctx fn settings w)
        as [[c0 Hc]|[err Herr]].
      + rewrite Hc. discriminate.
      + rewrite Herr. destruct (os_IsNotExist err); [|discriminate].
        unfold result. cbn [snd]. rewrite platformProbes_run.
        destruct (bool_decide (appengineTokenFunc w <> None)
                  && negb (appengineFlex w)).
        * destruct (appengineAppIDFunc w); [discriminate | reflexivity].
        * destruct (onGCE w); discriminate.
    - apply String.eqb_neq in Hset.
      rewrite (ADC_run_env_set ctx settings w Hset). discriminate. }
  assert (Hcall : (exists ctx', In (EvAppID ctx') (trace (ADC ctx settings w))) ->
                  appengineAppIDFunc w <> None).
  { destruct (String.eqb (getenv w envVar) "") eqn:Hset.
    - apply String.eqb_eq in Hset.
      destruct (wellKnownFile_total w) as (t & fn & Hwk).
      rewrite (ADC_run_env_unset ctx settings w t fn Hset Hwk).
      assert (Hpre : forall ctx' l,
        In (EvAppID ctx') (EvGetenv envVar :: t ++ EvReadFile fn :: l)%list ->
        In (EvAppID ctx') l).
      { intros ctx' l [Hin|Hin]; [discriminate|].
        apply in_app_or in Hin as [Hin|[Hin|Hin]]; [|discriminate|exact Hin].
        pose proof (wellKnownFile_trace w (EvAppID ctx')) as Hev.
        rewrite Hwk in Hev. destruct (Hev Hin) as [?|[?|?]]; discriminate. }
      destruct (fileCredentials_nil_or_error ctx fn settings w)
        as [[c0 Hc]|[err Herr]].
      + rewrite Hc. intros [ctx' Hin]. apply Hpre in Hin. destruct Hin.
      + rewrite Herr. destruct (os_IsNotExist err).
        * unfold trace. cbn [fst]. rewrite platformProbes_run.
          destruct (bool_decide (appengineTokenFunc w <> None)
                    && negb (appengineFlex w)).
          -- destruct (appengineAppIDFunc w); [discriminate|].
             intros [ctx' Hin]. apply Hpre in Hin. destruct Hin.
          -- destruct (onGCE w); intros [ctx' Hin]; apply Hpre in Hin;
               cbn in Hin; intuition discriminate.
        * intros [ctx' Hin]. apply Hpre in Hin. destruct Hin.
    - apply String.eqb_neq in Hset.
      rewrite (ADC_run_env_set ctx settings w Hset).
      intros [ctx' Hin]. cbn in Hin. intuition discriminate. }
  split; [|split].
  - intros Hp.
    destruct (appengine_probe_guard ctx settings w (or_intror Hp)) as [H1 H2].
    auto.
  - intros Hin.
    destruct (appengine_probe_guard ctx settings w (or_introl Hin)) as [H1 H2].
    auto.
  - intros Hinv Hp.
    destruct (appengine_probe_guard ctx settings w (or_intror Hp)) as [H1 _].
    apply (Hinv H1). auto.
Qed.

(** *** The document parser *)

(** C5. When [credentialsFromJSON] succeeds, the credentials carry the
    input bytes unchanged and the project id of the decoded document; the
    decoding starts from the zero value, so a document that leaves the
    project id untouched gives the empty string. *)
Theorem credentialsFromJSON_keeps_document
    (ctx : Context) (jsonData : list byte) (scopes : list string)
    (handler : option FlowHandler) (state : string)
    (r : option Credentials) :
  parse ctx jsonData scopes handler state = (r, None) ->
  exists (c : Credentials) (f : File),
    r = Some c /\
    JSON c = jsonData /\
    json_Unmarshal jsonData File_zero = (f, None) /\
    ProjectID c = File_ProjectID f /\
    (File_ProjectID f = File_ProjectID File_zero -> ProjectID c = "").
Proof.
  unfold credentialsFromJSON.
  destruct (json_Unmarshal jsonData File_zero) as [f [je|]]; [discriminate|].
  destruct (File_TokenSource f ctx scopes handler state) as [ts [e|]];
    [discriminate|].
  intros Hr. injection Hr as <-.
  eexists _, f. repeat split. intros Hzero. exact Hzero.
Qed.

(** *** The context *)

(** C7 (as amended). The chain itself never consults the context: reading
    a file and asking for the metadata server take no context.  When the
    file the chain looks at cannot be read and the App Engine probe is not
    taken, the whole run, accesses and answer, is the same for any two
    contexts, cancelled or not. *)
Theorem context_not_consulted
    (ctx1 ctx2 : Context) (settings : Settings) (w : World)
    (filename : string) :
  (getenv w envVar <> "" /\ filename = getenv w envVar) \/
  (getenv w envVar = "" /\ result (wellKnown w) = Val filename) ->
  snd (readFile w filename) <> None ->
  appengineTokenFunc w = None \/ appengineFlex w = true ->
  ADC ctx1 settings w = ADC ctx2 settings w.
Proof.
  intros Hfile Hread Hhook.
  assert (Hsame : forall ctx,
            fileCreds ctx filename settings w =
            (None, snd (readFile w filename))).
  { intros ctx. unfold fileCredentials.
    destruct (readFile w filename) as [b [err|]]; [reflexivity|].
    destruct Hread. reflexivity. }
  destruct Hfile as [[Hset ->]|[Hunset Hpath]].
  - rewrite !(ADC_run_env_set _ settings w Hset), !Hsame. reflexivity.
  - destruct (wellKnownFile_total w) as (t & fn & Hwk).
    rewrite Hwk in Hpath. unfold result in Hpath. cbn in Hpath.
    injection Hpath as ->.
    rewrite !(ADC_run_env_unset _ settings w t filename Hunset Hwk), !Hsame.
    destruct (snd (readFile w filename)) as [err|]; [|reflexivity].
    destruct (os_IsNotExist err); [|reflexivity].
    rewrite !platformProbes_run.
    assert (bool_decide (appengineTokenFunc w <> None)
            && negb (appengineFlex w) = false) as ->.
    { destruct Hhook as [-> | ->].
      - rewrite bool_decide_eq_false_2; [reflexivity | intros H; apply H; reflexivity].
      - apply andb_false_r. }
    reflexivity.
Qed.

End Properties.

(** *** The dispatch on the document kind *)

Section ParserDispatch.

Variable json_Unmarshal : list byte -> File -> File * option JSONErr.
Variable authCodeURL : File -> list string -> string -> string.
Variable exchange : File -> Context -> string -> string * option error.

(** C6. A document whose decoded [type] field is missing or names no
    known kind is refused by [credentialsFromJSON]: nil credentials and an
    error that is not a does-not-exist error. *)
Theorem unknown_kind_is_parse_error
    (ctx : Context) (jsonData : list byte) (scopes : list string)
    (handler : option FlowHandler) (state : string)
    (f : File) (je : option JSONErr) :
  json_Unmarshal jsonData File_zero = (f, je) ->
  File_Type f = "" \/ credentialKind (File_Type f) = None ->
  exists err,
    credentialsFromJSON json_Unmarshal
      (File_TokenSource_spec authCodeURL exchange)
      ctx jsonData scopes handler state = (None, Some err) /\
    os_IsNotExist err = false.
Proof.
  intros Hdecode Hkind.
  assert (Hnone : credentialKind (File_Type f) = None).
  { destruct Hkind as [Hmissing|Hunknown]; [|exact Hunknown].
    rewrite Hmissing. reflexivity. }
  unfold credentialsFromJSON, File_TokenSource_spec.
  rewrite Hdecode. destruct je as [je|].
  - eexists; split; reflexivity.
  - rewrite Hnone.
    destruct (String.eqb (File_Type f) ""); eexists; split; reflexivity.
Qed.

End ParserDispatch.

(** ** The theorems at the sample worlds *)

Lemma findJSONCredentials_explicit_witness :
  CredentialsJSON sample_explicit_settings <> "" /\
  sample_find canceled_context sample_explicit_settings bare_world =
  sample_find canceled_context sample_explicit_settings world_appengine_flex /\
  trace (sample_find canceled_context sample_explicit_settings bare_world) = [].
Proof.
  assert (H : CredentialsJSON sample_explicit_settings <> "")
    by (vm_compute; discriminate).
  split; [exact H|].
  destruct (findJSONCredentials_explicit sample_Unmarshal sample_TokenSource
              sample_Join canceled_context sample_explicit_settings
              bare_world world_appengine_flex H) as (H1 & H2 & _).
  split; [exact H1 | exact H2].
Defined.

Lemma env_var_failure_is_fatal_witness :
  getenv world_env_missing envVar = "/nonexistent/path" /\
  "/nonexistent/path" <> "" /\
  files world_env_missing !! "/nonexistent/path" = None /\
  exists msg,
    sample_ADC context_Background sample_settings world_env_missing =
      ([EvGetenv envVar; EvReadFile "/nonexistent/path"],
       Val (None, Some (fmt_Errorf msg))) /\
    contains envVar msg.
Proof.
  assert (H1 : getenv world_env_missing envVar = "/nonexistent/path")
    by reflexivity.
  assert (H2 : "/nonexistent/path" <> "") by discriminate.
  assert (H3 : files world_env_missing !! "/nonexistent/path" = None)
    by reflexivity.
  split; [exact H1|]. split; [exact H2|]. split; [exact H3|].
  destruct (env_var_failure_is_fatal sample_Unmarshal sample_TokenSource
              sample_Join context_Background sample_settings
              world_env_missing "/nonexistent/path" H1 H2) as [Hfatal _].
  destruct (Hfatal None (PathError "open" "/nonexistent/path" ENOENT) eq_refl)
    as (msg & Hrun & Hname & _).
  exists msg. split; [exact Hrun | exact Hname].
Defined.

Lemma well_known_file_errors_witness :
  (getenv bare_world envVar = "" /\
   result (wellKnownFile sample_Join bare_world) = Val wellKnown_unix /\
   result (readCredentialsFile sample_Unmarshal sample_TokenSource
             context_Background wellKnown_unix sample_settings bare_world) =
     Val (None, Some (PathError "open" wellKnown_unix ENOENT)) /\
   sample_ADC context_Background sample_settings bare_world =
     ([EvGetenv envVar; EvGetenv "HOME"; EvUserCurrent;
       EvReadFile wellKnown_unix; EvOnGCE],
      Val (None, Some (fmt_Errorf notFoundMessage)))) /\
  getenv world_wellknown_unreadable envVar = "" /\
  result (wellKnownFile sample_Join world_wellknown_unreadable) =
    Val wellKnown_home /\
  result (readCredentialsFile sample_Unmarshal sample_TokenSource
            context_Background wellKnown_home sample_settings
            world_wellknown_unreadable) =
    Val (None, Some (PathError "open" wellKnown_home EACCES)) /\
  sample_ADC context_Background sample_settings world_wellknown_unreadable =
    ([EvGetenv envVar; EvGetenv "HOME"; EvReadFile wellKnown_home],
     Val (None,
          Some (fmt_Errorf
                  (wellKnownMessage wellKnown_home
                     (PathError "open" wellKnown_home EACCES))))).
Proof.
  split.
  { assert (H1 : getenv bare_world envVar = "") by reflexivity.
    assert (H2 : result (wellKnownFile sample_Join bare_world) =
                 Val wellKnown_unix) by reflexivity.
    assert (H3 : result (readCredentialsFile sample_Unmarshal
                           sample_TokenSource context_Background
                           wellKnown_unix sample_settings bare_world) =
                 Val (None, Some (PathError "open" wellKnown_unix ENOENT)))
      by reflexivity.
    split; [exact H1|]. split; [exact H2|]. split; [exact H3|].
    destruct (well_known_file_errors sample_Unmarshal sample_TokenSource
                sample_Join context_Background sample_settings bare_world
                wellKnown_unix None
                (PathError "open" wellKnown_unix ENOENT) H1 H2 H3)
      as (Hgo & _).
    exact (Hgo eq_refl). }
  assert (H1 : getenv world_wellknown_unreadable envVar = "") by reflexivity.
  assert (H2 : result (wellKnownFile sample_Join world_wellknown_unreadable) =
               Val wellKnown_home) by reflexivity.
  assert (H3 : result (readCredentialsFile sample_Unmarshal sample_TokenSource
                         context_Background wellKnown_home sample_settings
                         world_wellknown_unreadable) =
               Val (None, Some (PathError "open" wellKnown_home EACCES)))
    by reflexivity.
  split; [exact H1|]. split; [exact H2|]. split; [exact H3|].
  destruct (well_known_file_errors sample_Unmarshal sample_TokenSource
              sample_Join context_Background sample_settings
              world_wellknown_unreadable wellKnown_home None
              (PathError "open" wellKnown_home EACCES) H1 H2 H3)
    as (_ & Hfatal & _).
  destruct (Hfatal eq_refl) as [Hrun _]. exact Hrun.
Defined.

Lemma exhausted_chain_reports_not_found_witness :
  getenv bare_world envVar = "" /\
  result (wellKnownFile sample_Join bare_world) = Val wellKnown_unix /\
  snd (readFile bare_world wellKnown_unix) =
    Some (PathError "open" wellKnown_unix ENOENT) /\
  os_IsNotExist (PathError "open" wellKnown_unix ENOENT) = true /\
  (appengineTokenFunc bare_world = None \/ appengineFlex bare_world = true) /\
  onGCE bare_world = false /\
  exists msg,
    result (sample_ADC context_Background sample_settings bare_world) =
      Val (None, Some (fmt_Errorf msg)) /\
    contains "could not find default credentials" msg /\
    contains url msg.
Proof.
  assert (H1 : getenv bare_world envVar = "") by reflexivity.
  assert (H2 : result (wellKnownFile sample_Join bare_world) =
               Val wellKnown_unix) by reflexivity.
  assert (H3 : snd (readFile bare_world wellKnown_unix) =
               Some (PathError "open" wellKnown_unix ENOENT)) by reflexivity.
  assert (H4 : os_IsNotExist (PathError "open" wellKnown_unix ENOENT) = true)
    by reflexivity.
  assert (H5 : appengineTokenFunc bare_world = None \/
               appengineFlex bare_world = true) by (left; reflexivity).
  assert (H6 : onGCE bare_world = false) by reflexivity.
  repeat (split; [assumption|]).
  exact (proj1 (exhausted_chain_reports_not_found sample_Unmarshal
                  sample_TokenSource sample_Join context_Background
                  sample_settings bare_world wellKnown_unix _
                  H1 H2 H3 H4 H5 H6)).
Defined.

(** C4, as stated, fails: HOME names a regular file, so the well-known
    file is absent, yet opening its path answers ENOTDIR, which is no
    does-not-exist error; with no hook and no metadata server the chain
    returns the wrapped error of the well-known file, not the not-found
    error. *)
Lemma absent_file_below_regular_file_is_fatal :
  getenv world_home_is_file envVar = "" /\
  result (wellKnownFile sample_Join world_home_is_file) = Val wellKnown_home /\
  fileAbsent world_home_is_file wellKnown_home = true /\
  appengineTokenFunc world_home_is_file = None /\
  onGCE world_home_is_file = false /\
  sample_ADC context_Background sample_settings world_home_is_file =
    ([EvGetenv envVar; EvGetenv "HOME"; EvReadFile wellKnown_home],
     Val (None,
          Some (fmt_Errorf
                  (wellKnownMessage wellKnown_home
                     (PathError "open" wellKnown_home ENOTDIR))))) /\
  ~ contains "could not find default credentials"
      (wellKnownMessage wellKnown_home
         (PathError "open" wellKnown_home ENOTDIR)).
Proof.
  repeat (split; [reflexivity|]).
  intros H. apply contains_index in H; [|discriminate].
  apply H. reflexivity.
Qed.

Lemma appengine_probe_gate_witness :
  getenv world_appengine_flex envVar = "" /\
  result (wellKnownFile sample_Join world_appengine_flex) =
    Val wellKnown_home /\
  files world_appengine_flex !! wellKnown_home = None /\
  appengineTokenFunc world_appengine_flex <> None /\
  appengineFlex world_appengine_flex = true /\
  sample_ADC context_Background sample_settings world_appengine_flex =
    ([EvGetenv envVar; EvGetenv "HOME"; EvUserCurrent;
      EvReadFile wellKnown_home; EvOnGCE; EvMetadataProjectID],
     Val (Some {| ProjectID := "project-7";
                  Creds_TokenSource := Some (ComputeTokenSource "");
                  JSON := [] |}, None)).
Proof.
  assert (H1 : getenv world_appengine_flex envVar = "") by reflexivity.
  assert (H2 : result (wellKnownFile sample_Join world_appengine_flex) =
               Val wellKnown_home) by reflexivity.
  assert (H3 : files world_appengine_flex !! wellKnown_home = None)
    by reflexivity.
  assert (H4 : appengineTokenFunc world_appengine_flex <> None)
    by discriminate.
  assert (H5 : appengineFlex world_appengine_flex = true) by reflexivity.
  repeat (split; [assumption|]).
  exact (proj2 (appengine_probe_gate sample_Unmarshal sample_TokenSource
                  sample_Join context_Background sample_settings
                  world_appengine_flex wellKnown_home) H1 H2 H3 H4 H5).
Defined.

Lemma appengine_hooks_checked_by_token_hook_witness :
  (appengineTokenFunc world_appengine <> None ->
   appengineAppIDFunc world_appengine <> None) /\
  result (sample_ADC context_Background sample_settings world_appengine)
    <> Panic.
Proof.
  assert (H : appengineTokenFunc world_appengine <> None ->
              appengineAppIDFunc world_appengine <> None)
    by (intros _; discriminate).
  split; [exact H|].
  exact (proj2 (proj2 (appengine_hooks_checked_by_token_hook sample_Unmarshal
                         sample_TokenSource sample_Join context_Background
                         sample_settings world_appengine)) H).
Defined.

(** C9, as stated, fails: with the token hook set and the application id
    hook nil the probe passes its guard and calls the nil hook. *)
Lemma nil_app_id_hook_is_called :
  appengineTokenFunc world_token_hook_only <> None /\
  appengineFlex world_token_hook_only = false /\
  appengineAppIDFunc world_token_hook_only = None /\
  sample_ADC context_Background sample_settings world_token_hook_only =
    ([EvGetenv envVar; EvGetenv "HOME"; EvUserCurrent;
      EvReadFile wellKnown_home],
     Panic).
Proof.
  split; [discriminate|]. repeat split.
Qed.

Lemma credentialsFromJSON_keeps_document_witness :
  credentialsFromJSON sample_Unmarshal sample_TokenSource context_Background
    (list_byte_of_string sample_document) ["scope-a"] None "" =
    (Some {| ProjectID := "p1";
             Creds_TokenSource :=
               Some (JWTConfigTokenSource "a@b" "..." ["scope-a"]);
             JSON := list_byte_of_string sample_document |}, None) /\
  exists (c : Credentials) (f : File),
    JSON c = list_byte_of_string sample_document /\
    sample_Unmarshal (list_byte_of_string sample_document) File_zero =
      (f, None) /\
    ProjectID c = File_ProjectID f.
Proof.
  assert (H : credentialsFromJSON sample_Unmarshal sample_TokenSource
                context_Background (list_byte_of_string sample_document)
                ["scope-a"] None "" =
              (Some {| ProjectID := "p1";
                       Creds_TokenSource :=
                         Some (JWTConfigTokenSource "a@b" "..." ["scope-a"]);
                       JSON := list_byte_of_string sample_document |}, None))
    by reflexivity.
  split; [exact H|].
  destruct (credentialsFromJSON_keeps_document sample_Unmarshal
              sample_TokenSource context_Background
              (list_byte_of_string sample_document) ["scope-a"] None "" _ H)
    as (c & f & _ & Hjson & Hdecode & Hid & _).
  exists c, f. auto.
Defined.

Lemma unknown_kind_is_parse_error_witness :
  sample_Unmarshal (list_byte_of_string sample_untyped_document) File_zero =
    (mkFile "" "p1" "" "" "" "" "", None) /\
  exists err,
    credentialsFromJSON sample_Unmarshal sample_TokenSource context_Background
      (list_byte_of_string sample_untyped_document) ["scope-a"] None "" =
      (None, Some err) /\
    os_IsNotExist err = false.
Proof.
  assert (H : sample_Unmarshal
                (list_byte_of_string sample_untyped_document) File_zero =
              (mkFile "" "p1" "" "" "" "" "", None)) by reflexivity.
  split; [exact H|].
  exact (unknown_kind_is_parse_error sample_Unmarshal _ _ context_Background
           (list_byte_of_string sample_untyped_document) ["scope-a"] None ""
           _ _ H (or_introl eq_refl)).
Defined.

Lemma context_not_consulted_witness :
  getenv bare_world envVar = "" /\
  result (wellKnownFile sample_Join bare_world) = Val wellKnown_unix /\
  snd (readFile bare_world wellKnown_unix) <> None /\
  appengineTokenFunc bare_world = None /\
  sample_ADC canceled_context sample_settings bare_world =
  sample_ADC context_Background sample_settings bare_world.
Proof.
  assert (H1 : getenv bare_world envVar = "") by reflexivity.
  assert (H2 : result (wellKnownFile sample_Join bare_world) =
               Val wellKnown_unix) by reflexivity.
  assert (H3 : snd (readFile bare_world wellKnown_unix) <> None)
    by discriminate.
  assert (H4 : appengineTokenFunc bare_world = None) by reflexivity.
  repeat (split; [assumption|]).
  exact (context_not_consulted sample_Unmarshal sample_TokenSource sample_Join
           canceled_context context_Background sample_settings bare_world
           wellKnown_unix (or_intror (conj H1 H2)) H3 (or_introl H4)).
Defined.

(** C7, as stated, fails: under a cancelled context, on a machine with
    nothing on it, the chain reads the environment, looks for the
    well-known file, goes on to the metadata probe and ends with the
    not-found error, which is no cancellation error. *)
Lemma cancelled_context_falls_through :
  ctx_Err canceled_context = Some Canceled /\
  sample_ADC canceled_context sample_settings bare_world =
    ([EvGetenv envVar; EvGetenv "HOME"; EvUserCurrent;
      EvReadFile wellKnown_unix; EvOnGCE],
     Val (None, Some (fmt_Errorf notFoundMessage))) /\
  isCancellation (fmt_Errorf notFoundMessage) = false /\
  ~ contains (Error (ContextError Canceled)) notFoundMessage.
Proof.
  repeat split.
  intros H. apply contains_index in H; [|discriminate].
  apply H. reflexivity.
Qed.

(** ** Further properties of the chain *)

Section Chain.

Variable json_Unmarshal : list byte -> File -> File * option JSONErr.
Variable File_TokenSource :
  File -> Context -> list string -> option FlowHandler -> string ->
  option TokenSource * option error.
Variable filepath_Join : list string -> string.

Local Abbreviation parse := (credentialsFromJSON json_Unmarshal File_TokenSource).
Local Abbreviation fileCreds := (fileCredentials json_Unmarshal File_TokenSource).
Local Abbreviation wellKnown := (wellKnownFile filepath_Join).
Local Abbreviation ADC :=
  (applicationDefaultCredentials json_Unmarshal File_TokenSource filepath_Join).

Lemma parse_keeps_bytes
    (ctx : Context) (b : list byte) (scopes : list string)
    (handler : option FlowHandler) (state : string) (c : Credentials) :
  parse ctx b scopes handler state = (Some c, None) -> JSON c = b.
Proof.
  unfold credentialsFromJSON.
  destruct (json_Unmarshal b File_zero) as [f [je|]]; [discriminate|].
  destruct (File_TokenSource f ctx scopes handler state) as [ts [e|]];
    [discriminate|].
  intros H. injection H as <-. reflexivity.
Qed.

Lemma wellKnownFile_run (w : World) (filename : string) :
  result (wellKnown w) = Val filename ->
  wellKnown w = (trace (wellKnown w), Val filename).
Proof.
  destruct (wellKnown w) as [t o]. unfold result, trace. cbn.
  intros ->. reflexivity.
Qed.

(** X1. When GOOGLE_APPLICATION_CREDENTIALS names a file, the chain looks
    at nothing but the variable and that file, whatever the outcome; if the
    file holds a document that parses, its credentials are returned and
    carry the bytes of the file. *)
Theorem env_var_file_is_the_only_source
    (ctx : Context) (settings : Settings) (w : World) (filename : string) :
  getenv w envVar = filename ->
  filename <> "" ->
  trace (ADC ctx settings w) = [EvGetenv envVar; EvReadFile filename] /\
  (forall b c,
     files w !! filename = Some (inr b) ->
     parse ctx b (strings_Split (Scope settings) " ")
       (OAuthFlowHandler settings) (State settings) = (Some c, None) ->
     result (ADC ctx settings w) = Val (Some c, None) /\ JSON c = b).
Proof.
  intros <- Hset. rewrite (ADC_run_env_set _ _ _ ctx settings w Hset).
  split; [reflexivity|].
  intros b c Hfile Hparse. unfold fileCredentials, readFile.
  rewrite Hfile, Hparse. split; [reflexivity|].
  exact (parse_keeps_bytes _ _ _ _ _ _ Hparse).
Qed.

(** X2. With the variable unset, a well-known file that holds a document
    that parses ends the chain: its credentials are returned with the bytes
    of the file, and neither the App Engine hooks nor the metadata server
    are consulted. *)
Theorem well_known_document_is_returned
    (ctx : Context) (settings : Settings) (w : World) (filename : string)
    (b : list byte) (c : Credentials) :
  getenv w envVar = "" ->
  result (wellKnown w) = Val filename ->
  files w !! filename = Some (inr b) ->
  parse ctx b (strings_Split (Scope settings) " ")
    (OAuthFlowHandler settings) (State settings) = (Some c, None) ->
  ADC ctx settings w =
    ((EvGetenv envVar :: trace (wellKnown w) ++ [EvReadFile filename])%list,
     Val (Some c, None)) /\
  JSON c = b.
Proof.
  intros Hunset Hpath Hfile Hparse.
  rewrite (ADC_run_env_unset _ _ _ ctx settings w _ filename Hunset
             (wellKnownFile_run w filename Hpath)).
  unfold fileCredentials, readFile. rewrite Hfile, Hparse.
  split; [reflexivity|].
  exact (parse_keeps_bytes _ _ _ _ _ _ Hparse).
Qed.

(** The chain when the variable is unset and the well-known path has no
    entry (ENOENT). *)
Lemma ADC_run_platform
    (ctx : Context) (settings : Settings) (w : World) (filename : string) :
  getenv w envVar = "" ->
  result (wellKnown w) = Val filename ->
  files w !! filename = None ->
  ADC ctx settings w =
    ((EvGetenv envVar :: trace (wellKnown w) ++ EvReadFile filename
        :: trace (platformProbes ctx settings w))%list,
     result (platformProbes ctx settings w)).
Proof.
  intros Hunset Hpath Habsent.
  rewrite (ADC_run_env_unset _ _ _ ctx settings w _ filename Hunset
             (wellKnownFile_run w filename Hpath)).
  unfold fileCredentials, readFile. rewrite Habsent. reflexivity.
Qed.

(** X3. On a machine with a metadata server, reached with the variable
    unset, no entry for the well-known file and the App Engine probe not taken,
    the chain succeeds whatever the project id lookup answers: its error is
    dropped and the id it gave, empty or not, becomes the project id. *)
Theorem metadata_project_id_error_is_dropped
    (ctx : Context) (settings : Settings) (w : World) (filename : string)
    (id : string) (lookupErr : option error) :
  getenv w envVar = "" ->
  result (wellKnown w) = Val filename ->
  files w !! filename = None ->
  appengineTokenFunc w = None \/ appengineFlex w = true ->
  onGCE w = true ->
  metadataProjectID w = (id, lookupErr) ->
  result (ADC ctx settings w) =
    Val (Some {| ProjectID := id;
                 Creds_TokenSource := Some (ComputeTokenSource "");
                 JSON := [] |}, None).
Proof.
  intros Hunset Hpath Habsent Hhook Hgce Hid.
  rewrite (ADC_run_platform ctx settings w filename Hunset Hpath Habsent).
  unfold result. cbn [snd]. rewrite platformProbes_run, Hgce, Hid.
  assert (bool_decide (appengineTokenFunc w <> None)
          && negb (appengineFlex w) = false) as ->.
  { destruct Hhook as [-> | ->].
    - rewrite bool_decide_eq_false_2; [reflexivity | intros H; apply H; reflexivity].
    - apply andb_false_r. }
  reflexivity.
Qed.

(** X4. App Engine comes before the metadata server: when the chain
    reaches the App Engine probe with both hooks set and the flex flag off,
    it returns the App Engine credentials (the application id of the hook,
    the unsplit scope) and never asks for the metadata server. *)
Theorem appengine_before_metadata
    (ctx : Context) (settings : Settings) (w : World) (filename : string)
    (appID : Context -> string) :
  getenv w envVar = "" ->
  result (wellKnown w) = Val filename ->
  files w !! filename = None ->
  appengineTokenFunc w <> None ->
  appengineFlex w = false ->
  appengineAppIDFunc w = Some appID ->
  ADC ctx settings w =
    ((EvGetenv envVar :: trace (wellKnown w)
        ++ [EvReadFile filename; EvAppID ctx])%list,
     Val (Some {| ProjectID := appID ctx;
                  Creds_TokenSource :=
                    Some (AppEngineTokenSource ctx (Scope settings));
                  JSON := [] |}, None)).
Proof.
  intros Hunset Hpath Habsent Hhook Hflex Happ.
  rewrite (ADC_run_platform ctx settings w filename Hunset Hpath Habsent).
  rewrite platformProbes_run, Hflex, Happ.
  rewrite (bool_decide_eq_true_2 _ Hhook). reflexivity.
Qed.

(** X5. Every error of the chain is one it formatted itself: its message
    starts with the prefix of the package, and neither [os.IsNotExist] nor
    a test for a context error holds of it, whatever the cause was. *)
Theorem chain_errors_are_formatted
    (ctx : Context) (settings : Settings) (w : World)
    (c : option Credentials) (e : error) :
  result (ADC ctx settings w) = Val (c, Some e) ->
  exists msg,
    e = errorString ("google: " +:+ msg) /\
    os_IsNotExist e = false /\ isCancellation e = false.
Proof.
  intros Hres.
  destruct (String.eqb (getenv w envVar) "") eqn:Hset.
  - apply String.eqb_eq in Hset.
    destruct (wellKnownFile_total filepath_Join w) as (t & fn & Hwk).
    rewrite (ADC_run_env_unset _ _ _ ctx settings w t fn Hset Hwk) in Hres.
    destruct (fileCreds ctx fn settings w) as [c0 [err|]].
    + destruct (os_IsNotExist err).
      * unfold result in Hres. cbn [snd] in Hres.
        rewrite platformProbes_run in Hres.
        destruct (bool_decide (appengineTokenFunc w <> None)
                  && negb (appengineFlex w)).
        -- destruct (appengineAppIDFunc w); discriminate.
        -- destruct (onGCE w); [discriminate|].
           injection Hres as _ <-. eexists. repeat split.
      * injection Hres as _ <-. eexists. repeat split.
    + discriminate.
  - apply String.eqb_neq in Hset.
    rewrite (ADC_run_env_set _ _ _ ctx settings w Hset) in Hres.
    destruct (fileCreds ctx (getenv w envVar) settings w) as [c0 [err|]];
      [|discriminate].
    injection Hres as _ <-. eexists. repeat split.
Qed.

(** X6. Every run of the chain begins by reading
    GOOGLE_APPLICATION_CREDENTIALS and calls [ioutil.ReadFile] exactly
    once: on the path the variable holds when that is not empty, and
    otherwise on the well-known path; never on both.  (What [user.Current]
    consults is the library's business and is logged as its own access.) *)
Theorem chain_reads_one_file
    (ctx : Context) (settings : Settings) (w : World) :
  (exists t, trace (ADC ctx settings w) = EvGetenv envVar :: t) /\
  exists filename,
    result (wellKnown w) = Val filename /\
    List.filter isReadFile (trace (ADC ctx settings w)) =
      [EvReadFile (if String.eqb (getenv w envVar) "" then filename
                   else getenv w envVar)].
Proof.
  assert (Hwk : forall t fn, wellKnown w = (t, Val fn) ->
                  List.filter isReadFile t = []).
  { intros t fn Hrun.
    pose proof (wellKnownFile_trace filepath_Join w) as Hev.
    rewrite Hrun in Hev. unfold trace in Hev. cbn [fst] in Hev.
    clear Hrun. induction t as [|ev t IH]; [reflexivity|].
    cbn. destruct (Hev ev (or_introl eq_refl)) as [ -> | [ -> | -> ] ]; cbn;
      apply IH; intros ev' Hin; apply Hev; right; exact Hin. }
  destruct (wellKnownFile_total filepath_Join w) as (t & fn & Hrun).
  assert (Hfn : result (wellKnown w) = Val fn) by (rewrite Hrun; reflexivity).
  destruct (String.eqb (getenv w envVar) "") eqn:Hset.
  - apply String.eqb_eq in Hset.
    rewrite (ADC_run_env_unset _ _ _ ctx settings w t fn Hset Hrun).
    specialize (Hwk t fn Hrun).
    assert (Hone : forall l,
      List.filter isReadFile l = [] ->
      List.filter isReadFile
        (EvGetenv envVar :: t ++ EvReadFile fn :: l)%list = [EvReadFile fn]).
    { intros l Hl. cbn. rewrite List.filter_app, Hwk. cbn. rewrite Hl.
      reflexivity. }
    destruct (fileCreds ctx fn settings w) as [c0 [err|]].
    + destruct (os_IsNotExist err).
      * unfold trace. cbn [fst]. split; [eauto|]. exists fn.
        split; [exact Hfn|]. apply Hone.
        rewrite platformProbes_run.
        destruct (bool_decide (appengineTokenFunc w <> None)
                  && negb (appengineFlex w)).
        -- destruct (appengineAppIDFunc w); reflexivity.
        -- destruct (onGCE w); reflexivity.
      * unfold trace. cbn [fst]. split; [eauto|]. exists fn.
        split; [exact Hfn|]. apply Hone. reflexivity.
    + unfold trace. cbn [fst]. split; [eauto|]. exists fn.
      split; [exact Hfn|]. apply Hone. reflexivity.
  - apply String.eqb_neq in Hset.
    rewrite (ADC_run_env_set _ _ _ ctx settings w Hset).
    split; [eauto|]. exists fn. split; [exact Hfn|]. reflexivity.
Qed.

End Chain.

(** ** The well-known location and the parser, further *)

Section Parser.

Variable json_Unmarshal : list byte -> File -> File * option JSONErr.
Variable File_TokenSource :
  File -> Context -> list string -> option FlowHandler -> string ->
  option TokenSource * option error.
Variable filepath_Join : list string -> string.

Local Abbreviation parse := (credentialsFromJSON json_Unmarshal File_TokenSource).

(** X7. The accesses of [wellKnownFile]: on Windows APPDATA alone;
    elsewhere HOME, and the user database only when HOME is empty. *)
Theorem wellKnownFile_accesses (w : World) :
  trace (wellKnownFile filepath_Join w) =
    if String.eqb (GOOS w) "windows" then [EvGetenv "APPDATA"]
    else if String.eqb (getenv w "HOME") "" then [EvGetenv "HOME"; EvUserCurrent]
    else [EvGetenv "HOME"].
Proof.
  unfold wellKnownFile. unfold bind at 1. unfold global.
  destruct (String.eqb (GOOS w) "windows"); [reflexivity|].
  unfold bind. rewrite guessUnixHomeDir_run.
  destruct (String.eqb (getenv w "HOME") ""); reflexivity.
Qed.

(** X8. [credentialsFromJSON] answers all or nothing: credentials with a
    nil error, or nil credentials with an error.  A decoding error is
    returned as it is; an error of [File.TokenSource] is returned as it is
    and the token source that came with it, if any, is dropped. *)
Theorem credentialsFromJSON_all_or_nothing
    (ctx : Context) (b : list byte) (scopes : list string)
    (handler : option FlowHandler) (state : string) :
  ((exists c, parse ctx b scopes handler state = (Some c, None)) \/
   (exists e, parse ctx b scopes handler state = (None, Some e))) /\
  (forall f je,
     json_Unmarshal b File_zero = (f, Some je) ->
     parse ctx b scopes handler state = (None, Some (JSONError je))) /\
  (forall f ts e,
     json_Unmarshal b File_zero = (f, None) ->
     File_TokenSource f ctx scopes handler state = (ts, Some e) ->
     parse ctx b scopes handler state = (None, Some e)).
Proof.
  split; [apply parse_nil_or_error|]. unfold credentialsFromJSON. split.
  - intros f je ->. reflexivity.
  - intros f ts e -> ->. reflexivity.
Qed.

End Parser.

Lemma strings_Split_not_nil (s : string) (sep : ascii) :
  strings_Split s sep <> [].
Proof.
  destruct s as [|c s]; cbn; [discriminate|].
  destruct (Ascii.eqb c sep); [discriminate|].
  destruct (strings_Split s sep); discriminate.
Qed.

Lemma concat_cons (sep x : string) (l : list string) :
  l <> [] -> String.concat sep (x :: l) = x +:+ sep +:+ String.concat sep l.
Proof. destruct l; [contradiction | reflexivity]. Qed.

(** X9. The scopes handed to the parser are the pieces of [Scope] between
    its spaces: there is always at least one piece, no piece holds a space,
    and the pieces joined by spaces give [Scope] back. *)
Theorem strings_Split_pieces (s : string) (sep : ascii) :
  strings_Split s sep <> [] /\
  Forall (fun piece => occurs sep piece = false) (strings_Split s sep) /\
  String.concat (String sep "") (strings_Split s sep) = s.
Proof.
  split; [apply strings_Split_not_nil|].
  induction s as [|c s [IHocc IHcat]].
  - split; [repeat constructor | reflexivity].
  - pose proof (strings_Split_not_nil s sep) as Hne.
    cbn [strings_Split]. destruct (Ascii.eqb c sep) eqn:Hc.
    + apply Ascii.eqb_eq in Hc. subst c. split.
      * constructor; [reflexivity | exact IHocc].
      * rewrite (concat_cons _ _ _ Hne), IHcat. reflexivity.
    + destruct (strings_Split s sep) as [|piece rest]; [contradiction|].
      split.
      * inversion IHocc as [|? ? Hpiece Hrest]; subst.
        constructor; [|exact Hrest]. cbn. rewrite Hc. exact Hpiece.
      * destruct rest as [|piece' rest].
        -- cbn in IHcat |- *. rewrite IHcat. reflexivity.
        -- rewrite concat_cons by discriminate.
           rewrite concat_cons in IHcat by discriminate.
           rewrite append_cons, IHcat. reflexivity.
Qed.

(** ** The entry points *)

Lemma bind_run {A B : Type} (m : M A) (k : A -> M B) (w : World)
    (t : list Event) (a : A) :
  m w = (t, Val a) ->
  bind m k w = ((t ++ trace (k a w))%list, result (k a w)).
Proof.
  intros Hm. unfold bind, trace, result. rewrite Hm.
  destruct (k a w); reflexivity.
Qed.

Lemma bind_panic {A B : Type} (m : M A) (k : A -> M B) (w : World)
    (t : list Event) :
  m w = (t, Panic) -> bind m k w = (t, Panic).
Proof. intros Hm. unfold bind. rewrite Hm. reflexivity. Qed.

Section EntryPointProperties.

Variable json_Unmarshal : list byte -> File -> File * option JSONErr.
Variable File_TokenSource :
  File -> Context -> list string -> option FlowHandler -> string ->
  option TokenSource * option error.
Variable filepath_Join : list string -> string.
Variable JWTAccessTokenSourceFromJSON :
  list byte -> string -> option TokenSource * option error.

Local Abbreviation parse := (credentialsFromJSON json_Unmarshal File_TokenSource).
Local Abbreviation wellKnown := (wellKnownFile filepath_Join).
Local Abbreviation ADC :=
  (applicationDefaultCredentials json_Unmarshal File_TokenSource filepath_Join).
Local Abbreviation find :=
  (findJSONCredentials json_Unmarshal File_TokenSource filepath_Join).
Local Abbreviation DTS :=
  (DefaultTokenSource json_Unmarshal File_TokenSource filepath_Join).
Local Abbreviation OAuth :=
  (OAuthJSONTokenSource json_Unmarshal File_TokenSource filepath_Join).
Local Abbreviation JWT :=
  (JWTTokenSource json_Unmarshal File_TokenSource filepath_Join
     JWTAccessTokenSourceFromJSON).
Local Abbreviation GrpcDefault :=
  (NewGrpcApplicationDefault json_Unmarshal File_TokenSource filepath_Join).
Local Abbreviation GrpcJWT :=
  (NewGrpcJWT json_Unmarshal File_TokenSource filepath_Join
     JWTAccessTokenSourceFromJSON).

(** What a run of the chain can be. *)
Lemma ADC_cases (ctx : Context) (settings : Settings) (w : World) :
  (exists t c, ADC ctx settings w = (t, Val (Some c, None))) \/
  (exists t e, ADC ctx settings w = (t, Val (None, Some e))) \/
  (exists t, ADC ctx settings w = (t, Panic) /\
             appengineTokenFunc w <> None /\ appengineFlex w = false /\
             appengineAppIDFunc w = None).
Proof.
  destruct (ADC ctx settings w) as [t [[c e]|]] eqn:Hrun.
  - assert (Hres : result (ADC ctx settings w) = Val (c, e))
      by (rewrite Hrun; reflexivity).
    destruct (ADC_credentials_xor_error json_Unmarshal File_TokenSource
                filepath_Join ctx settings w c e Hres) as [[-> He]|[Hc ->]].
    + destruct e as [e|]; [|contradiction]. right; left. eauto.
    + destruct c as [c|]; [|contradiction]. left. eauto.
  - right; right. exists t. split; [reflexivity|].
    assert (Hp : result (ADC ctx settings w) = Panic) by (rewrite Hrun; reflexivity).
    destruct (appengine_probe_guard json_Unmarshal File_TokenSource filepath_Join ctx settings w (or_intror Hp))
      as [Hhook Hflex].
    split; [exact Hhook|]. split; [exact Hflex|].
    destruct (String.eqb (getenv w envVar) "") eqn:Hset.
    + apply String.eqb_eq in Hset.
      destruct (wellKnownFile_total filepath_Join w) as (t' & fn & Hwk).
      rewrite (ADC_run_env_unset json_Unmarshal File_TokenSource filepath_Join ctx settings w t' fn Hset Hwk) in Hp.
      destruct (fileCredentials json_Unmarshal File_TokenSource ctx fn settings w) as [c0 [err|]];
        [|discriminate].
      destruct (os_IsNotExist err); [|discriminate].
      unfold result in Hp. cbn [snd] in Hp. rewrite platformProbes_run in Hp.
      destruct (bool_decide (appengineTokenFunc w <> None)
                && negb (appengineFlex w)).
      * destruct (appengineAppIDFunc w); [discriminate | reflexivity].
      * destruct (onGCE w); discriminate.
    + apply String.eqb_neq in Hset.
      rewrite (ADC_run_env_set json_Unmarshal File_TokenSource filepath_Join ctx settings w Hset) in Hp. discriminate.
Qed.

Lemma find_cases (ctx : Context) (settings : Settings) (w : World) :
  (exists t c, find ctx settings w = (t, Val (Some c, None))) \/
  (exists t e, find ctx settings w = (t, Val (None, Some e))) \/
  (exists t, find ctx settings w = (t, Panic) /\
             appengineTokenFunc w <> None /\ appengineFlex w = false /\
             appengineAppIDFunc w = None).
Proof.
  unfold findJSONCredentials.
  destruct (negb (String.eqb (CredentialsJSON settings) "")).
  - unfold ret.
    destruct (parse_nil_or_error json_Unmarshal File_TokenSource ctx
                (list_byte_of_string (CredentialsJSON settings))
                (strings_Split (Scope settings) " ")
                (OAuthFlowHandler settings) (State settings))
      as [[c ->]|[e ->]]; [left | right; left]; eauto.
  - apply ADC_cases.
Qed.

(** X10. The panics of the five entry points.  None of them dereferences
    nil credentials.  [DefaultTokenSource] and [NewGrpcJWT] panic only with
    the chain: the App Engine guard passed with the application id hook
    nil.  The three that take the settings pointer panic only then or on a
    nil pointer, and on a nil pointer they panic before any access. *)
Theorem entry_points_panics
    (ctx : Context) (scope aud : string) (settings : option Settings)
    (w : World) :
  (result (DTS ctx scope w) = Panic \/ result (GrpcJWT ctx aud w) = Panic ->
   appengineTokenFunc w <> None /\ appengineFlex w = false /\
   appengineAppIDFunc w = None) /\
  (result (OAuth ctx settings w) = Panic \/
   result (JWT ctx settings w) = Panic \/
   result (GrpcDefault ctx settings w) = Panic ->
   settings = None \/
   (appengineTokenFunc w <> None /\ appengineFlex w = false /\
    appengineAppIDFunc w = None)) /\
  (OAuth ctx None w = ([], Panic) /\
   JWT ctx None w = ([], Panic) /\
   GrpcDefault ctx None w = ([], Panic)).
Proof.
  assert (Hdts : forall sc, result (DTS ctx sc w) = Panic ->
            appengineTokenFunc w <> None /\ appengineFlex w = false /\
            appengineAppIDFunc w = None).
  { intros sc. unfold DefaultTokenSource.
    destruct (ADC_cases ctx (mkSettings sc "" "" None "") w)
      as [(t & c & Hrun)|[(t & e & Hrun)|(t & Hrun & Hstate)]].
    - rewrite (bind_run _ _ w t _ Hrun). discriminate.
    - rewrite (bind_run _ _ w t _ Hrun). discriminate.
    - intros _. exact Hstate. }
  split; [|split].
  - intros [Hp|Hp].
    + exact (Hdts scope Hp).
    + revert Hp. unfold NewGrpcJWT.
      destruct (ADC_cases ctx (mkSettings "" "" "" None "") w)
        as [(t & c & Hrun)|[(t & e & Hrun)|(t & Hrun & Hstate)]].
      * rewrite (bind_run _ _ w t _ Hrun).
        destruct (JWTAccessTokenSourceFromJSON (JSON c) aud) as [ts [e|]];
          discriminate.
      * rewrite (bind_run _ _ w t _ Hrun). discriminate.
      * intros _. exact Hstate.
  - destruct settings as [settings|]; [|left; reflexivity].
    intros Hp. right. destruct Hp as [Hp|[Hp|Hp]].
    + revert Hp. unfold OAuthJSONTokenSource.
      destruct (find_cases ctx settings w)
        as [(t & c & Hrun)|[(t & e & Hrun)|(t & Hrun & Hstate)]].
      * rewrite (bind_run _ _ w t _ Hrun). discriminate.
      * rewrite (bind_run _ _ w t _ Hrun). discriminate.
      * intros _. exact Hstate.
    + revert Hp. unfold JWTTokenSource.
      destruct (find_cases ctx settings w)
        as [(t & c & Hrun)|[(t & e & Hrun)|(t & Hrun & Hstate)]].
      * rewrite (bind_run _ _ w t _ Hrun). discriminate.
      * rewrite (bind_run _ _ w t _ Hrun). discriminate.
      * intros _. exact Hstate.
    + apply (Hdts (Scope settings)).
      revert Hp. unfold NewGrpcApplicationDefault.
      destruct (DTS ctx (Scope settings) w) as [t [[ts e]|]] eqn:Hrun.
      * rewrite (bind_run _ _ w t _ Hrun). destruct e; discriminate.
      * reflexivity.
  - repeat split.
Qed.

(** X11. Given settings (a pointer that is not nil) with a non-empty
    [CredentialsJSON], [OAuthJSONTokenSource] makes
    no access to the world and answers what [File.TokenSource] answers for
    the decoded document and the split scopes: its token source with a nil
    error, or its error with a nil token source; a document that does not
    decode gives the decoding error. *)
Theorem OAuthJSONTokenSource_explicit
    (ctx : Context) (settings : Settings) (w : World) :
  CredentialsJSON settings <> "" ->
  OAuth ctx (Some settings) w =
    ([],
     Val match json_Unmarshal (list_byte_of_string (CredentialsJSON settings))
                 File_zero with
         | (_, Some je) => (None, Some (JSONError je))
         | (f, None) =>
             match File_TokenSource f ctx (strings_Split (Scope settings) " ")
                     (OAuthFlowHandler settings) (State settings) with
             | (_, Some e) => (None, Some e)
             | (ts, None) => (ts, None)
             end
         end).
Proof.
  intros Hjson. apply String.eqb_neq in Hjson.
  unfold OAuthJSONTokenSource, findJSONCredentials. rewrite Hjson.
  cbn [negb]. unfold bind, ret, credentialsFromJSON.
  destruct (json_Unmarshal _ File_zero) as [f [je|]]; [reflexivity|].
  destruct (File_TokenSource f ctx _ _ _) as [ts [e|]]; reflexivity.
Qed.

(** X12. Given settings (a pointer that is not nil) with a non-empty
    [CredentialsJSON], [JWTTokenSource] makes no
    access to the world.  The document must first pass the parser: if it
    does not, the parser's error is returned; if it does, the answer is
    that of [JWTAccessTokenSourceFromJSON] on the bytes of
    [CredentialsJSON] and the audience, unchanged. *)
Theorem JWTTokenSource_explicit
    (ctx : Context) (settings : Settings) (w : World) :
  CredentialsJSON settings <> "" ->
  JWT ctx (Some settings) w =
    ([],
     Val match parse ctx (list_byte_of_string (CredentialsJSON settings))
                 (strings_Split (Scope settings) " ")
                 (OAuthFlowHandler settings) (State settings) with
         | (_, Some e) => (None, Some e)
         | (_, None) =>
             JWTAccessTokenSourceFromJSON
               (list_byte_of_string (CredentialsJSON settings))
               (Audience settings)
         end).
Proof.
  intros Hjson. apply String.eqb_neq in Hjson.
  unfold JWTTokenSource, findJSONCredentials. rewrite Hjson.
  cbn [negb]. unfold bind, ret.
  destruct (parse_nil_or_error json_Unmarshal File_TokenSource ctx
              (list_byte_of_string (CredentialsJSON settings))
              (strings_Split (Scope settings) " ")
              (OAuthFlowHandler settings) (State settings))
    as [[c Hc]|[e He]].
  - rewrite Hc.
    rewrite (parse_keeps_bytes json_Unmarshal File_TokenSource _ _ _ _ _ _ Hc). reflexivity.
  - rewrite He. reflexivity.
Qed.

Lemma platformProbes_no_document
    (ctx : Context) (settings : Settings) (w : World) (c : Credentials) :
  result (platformProbes ctx settings w) = Val (Some c, None) -> JSON c = [].
Proof.
  rewrite platformProbes_run.
  destruct (bool_decide (appengineTokenFunc w <> None)
            && negb (appengineFlex w)).
  - destruct (appengineAppIDFunc w); [|discriminate].
    intros H. injection H as <-. reflexivity.
  - destruct (onGCE w); [|discriminate].
    intros H. injection H as <-. reflexivity.
Qed.

(** X13. Credentials from App Engine or from the metadata server carry no
    document: when the chain ends in one of those two probes, both
    [JWTTokenSource] (with an empty [CredentialsJSON]) and [NewGrpcJWT]
    hand [JWTAccessTokenSourceFromJSON] an empty document. *)
Theorem jwt_from_platform_credentials_has_no_document
    (ctx : Context) (settings : Settings) (aud : string) (w : World)
    (filename : string) :
  getenv w envVar = "" ->
  result (wellKnown w) = Val filename ->
  files w !! filename = None ->
  (CredentialsJSON settings = "" ->
   forall c, result (platformProbes ctx settings w) = Val (Some c, None) ->
   result (JWT ctx (Some settings) w) =
     Val (JWTAccessTokenSourceFromJSON [] (Audience settings))) /\
  (forall c,
     result (platformProbes ctx (mkSettings "" "" "" None "") w) =
       Val (Some c, None) ->
     result (GrpcJWT ctx aud w) =
       Val match JWTAccessTokenSourceFromJSON [] aud with
           | (_, Some e) => (None, Some e)
           | (ts, None) => (Some (mkGrpcTokenSource ts), None)
           end).
Proof.
  intros Hunset Hpath Habsent. split.
  - intros Hjson c Hc.
    unfold JWTTokenSource, findJSONCredentials. rewrite Hjson.
    cbn [negb String.eqb].
    pose proof (ADC_run_platform json_Unmarshal File_TokenSource filepath_Join ctx settings w filename
                  Hunset Hpath Habsent) as Hrun.
    rewrite Hc in Hrun. rewrite (bind_run _ _ w _ _ Hrun).
    unfold result, ret. cbn [snd].
    rewrite (platformProbes_no_document ctx settings w c Hc). reflexivity.
  - intros c Hc. unfold NewGrpcJWT.
    pose proof (ADC_run_platform json_Unmarshal File_TokenSource filepath_Join ctx (mkSettings "" "" "" None "") w
                  filename Hunset Hpath Habsent) as Hrun.
    rewrite Hc in Hrun. rewrite (bind_run _ _ w _ _ Hrun).
    rewrite (platformProbes_no_document ctx _ w c Hc).
    destruct (JWTAccessTokenSourceFromJSON [] aud) as [ts [e|]]; reflexivity.
Qed.

Lemma DefaultTokenSource_run
    (ctx : Context) (scope : string) (w : World) :
  DTS ctx scope w =
    (trace (ADC ctx (mkSettings scope "" "" None "") w),
     match result (ADC ctx (mkSettings scope "" "" None "") w) with
     | Val (Some c, None) => Val (Creds_TokenSource c, None)
     | Val (_, Some e) => Val (None, Some e)
     | _ => Panic
     end).
Proof.
  unfold DefaultTokenSource.
  destruct (ADC_cases ctx (mkSettings scope "" "" None "") w)
    as [(t & c & Hrun)|[(t & e & Hrun)|(t & Hrun & _)]].
  - rewrite (bind_run _ _ w t _ Hrun), Hrun. unfold trace, result, ret. cbn.
    rewrite app_nil_r. reflexivity.
  - rewrite (bind_run _ _ w t _ Hrun), Hrun. unfold trace, result, ret. cbn.
    rewrite app_nil_r. reflexivity.
  - rewrite (bind_panic _ _ w t Hrun), Hrun. reflexivity.
Qed.

Lemma ADC_first_access (ctx : Context) (settings : Settings) (w : World) :
  exists t, trace (ADC ctx settings w) = EvGetenv envVar :: t.
Proof.
  destruct (String.eqb (getenv w envVar) "") eqn:Hset.
  - apply String.eqb_eq in Hset.
    destruct (wellKnownFile_total filepath_Join w) as (t & fn & Hwk).
    rewrite (ADC_run_env_unset json_Unmarshal File_TokenSource filepath_Join
               ctx settings w t fn Hset Hwk).
    destruct (fileCredentials json_Unmarshal File_TokenSource ctx fn settings w)
      as [c0 [err|]]; [destruct (os_IsNotExist err)|]; eauto.
  - apply String.eqb_neq in Hset.
    rewrite (ADC_run_env_set json_Unmarshal File_TokenSource filepath_Join
               ctx settings w Hset). eauto.
Qed.

(** X14. [NewGrpcApplicationDefault], given settings that are not nil,
    reads nothing of them but the scope: two settings with the same scope give the same run, so a
    non-empty [CredentialsJSON] is not looked at, and the run always starts
    by reading GOOGLE_APPLICATION_CREDENTIALS.  What it returns is the token
    source of the chain's credentials, wrapped, or the chain's error. *)
Theorem NewGrpcApplicationDefault_reads_scope_only
    (ctx : Context) (s1 s2 : Settings) (w : World) :
  Scope s1 = Scope s2 ->
  GrpcDefault ctx (Some s1) w = GrpcDefault ctx (Some s2) w /\
  (exists t, trace (GrpcDefault ctx (Some s1) w) = EvGetenv envVar :: t) /\
  (forall c,
     result (ADC ctx (mkSettings (Scope s1) "" "" None "") w) =
       Val (Some c, None) ->
     result (GrpcDefault ctx (Some s1) w) =
       Val (Some (mkGrpcTokenSource (Creds_TokenSource c)), None)) /\
  (forall e,
     result (ADC ctx (mkSettings (Scope s1) "" "" None "") w) =
       Val (None, Some e) ->
     result (GrpcDefault ctx (Some s1) w) = Val (None, Some e)).
Proof.
  intros Hscope. unfold NewGrpcApplicationDefault. rewrite <- Hscope.
  split; [reflexivity|].
  pose proof (DefaultTokenSource_run ctx (Scope s1) w) as Hdts.
  destruct (ADC_first_access ctx (mkSettings (Scope s1) "" "" None "") w)
    as [t Ht].
  destruct (ADC_cases ctx (mkSettings (Scope s1) "" "" None "") w)
    as [(t' & c & Hrun)|[(t' & e & Hrun)|(t' & Hrun & _)]];
    rewrite Hrun in Hdts, Ht |- *; unfold trace, result in Hdts, Ht |- *;
    cbn [fst snd] in Hdts, Ht |- *; subst t'.
  - rewrite (bind_run _ _ w _ _ Hdts). unfold trace, result, ret. cbn.
    split; [eauto|]. split; [|discriminate].
    intros c' Hc. injection Hc as <-. reflexivity.
  - rewrite (bind_run _ _ w _ _ Hdts). unfold trace, result, ret. cbn.
    split; [eauto|]. split; [discriminate|].
    intros e' He. injection He as <-. reflexivity.
  - rewrite (bind_panic _ _ w _ Hdts). cbn.
    split; [eauto|]. split; discriminate.
Qed.

(** X15. [NewGrpcJWT] answers all or nothing: per-RPC credentials with a
    nil error, or nil with an error.  When the chain fails, its error is
    returned as it is and [JWTAccessTokenSourceFromJSON] plays no part. *)
Theorem NewGrpcJWT_all_or_nothing
    (ctx : Context) (aud : string) (w : World) :
  (forall g e,
     result (GrpcJWT ctx aud w) = Val (g, e) ->
     (g = None /\ e <> None) \/ (g <> None /\ e = None)) /\
  (forall t e,
     ADC ctx (mkSettings "" "" "" None "") w = (t, Val (None, Some e)) ->
     GrpcJWT ctx aud w = (t, Val (None, Some e))).
Proof.
  unfold NewGrpcJWT. split.
  - intros g e.
    destruct (ADC_cases ctx (mkSettings "" "" "" None "") w)
      as [(t & c & Hrun)|[(t & e' & Hrun)|(t & Hrun & _)]].
    + rewrite (bind_run _ _ w t _ Hrun).
      destruct (JWTAccessTokenSourceFromJSON (JSON c) aud) as [ts [e'|]];
        unfold result, ret; cbn; intros H; injection H as <- <-;
        [left | right]; split; congruence.
    + rewrite (bind_run _ _ w t _ Hrun). unfold result, ret. cbn.
      intros H. injection H as <- <-. left. split; congruence.
    + rewrite (bind_panic _ _ w t Hrun). discriminate.
  - intros t e Hrun. rewrite (bind_run _ _ w t _ Hrun).
    unfold trace, result, ret. cbn. rewrite app_nil_r. reflexivity.
Qed.

(** X16. On a machine whose credentials come from the metadata server,
    [DefaultTokenSource] does not use the scope it is asked for: for every
    scope it returns the same token source, that of the default service
    account. *)
Theorem DefaultTokenSource_metadata_ignores_scope
    (ctx : Context) (scope : string) (w : World) (filename : string) :
  getenv w envVar = "" ->
  result (wellKnown w) = Val filename ->
  files w !! filename = None ->
  appengineTokenFunc w = None \/ appengineFlex w = true ->
  onGCE w = true ->
  DTS ctx scope w =
    ((EvGetenv envVar :: trace (wellKnown w)
        ++ [EvReadFile filename; EvOnGCE; EvMetadataProjectID])%list,
     Val (Some (ComputeTokenSource ""), None)).
Proof.
  intros Hunset Hpath Habsent Hhook Hgce.
  rewrite DefaultTokenSource_run.
  rewrite (ADC_run_platform json_Unmarshal File_TokenSource filepath_Join ctx
             _ w filename Hunset Hpath Habsent).
  rewrite platformProbes_run, Hgce.
  assert (bool_decide (appengineTokenFunc w <> None)
          && negb (appengineFlex w) = false) as ->.
  { destruct Hhook as [-> | ->].
    - rewrite bool_decide_eq_false_2; [reflexivity | intros H; apply H; reflexivity].
    - apply andb_false_r. }
  reflexivity.
Qed.

End EntryPointProperties.

(** ** The further properties at the sample worlds *)

Lemma env_var_file_is_the_only_source_witness :
  getenv world_env_document envVar = "/etc/key.json" /\
  "/etc/key.json" <> "" /\
  trace (sample_ADC context_Background sample_settings world_env_document) =
    [EvGetenv envVar; EvReadFile "/etc/key.json"] /\
  result (sample_ADC context_Background sample_settings world_env_document) =
    Val (Some sample_credentials, None).
Proof.
  assert (H1 : getenv world_env_document envVar = "/etc/key.json")
    by reflexivity.
  assert (H2 : "/etc/key.json" <> "") by discriminate.
  split; [exact H1|]. split; [exact H2|].
  destruct (env_var_file_is_the_only_source sample_Unmarshal
              sample_TokenSource sample_Join context_Background
              sample_settings world_env_document "/etc/key.json" H1 H2)
    as [Htrace Hdoc].
  split; [exact Htrace|].
  exact (proj1 (Hdoc (list_byte_of_string sample_document) sample_credentials
                  eq_refl eq_refl)).
Defined.

Lemma well_known_document_is_returned_witness :
  getenv world_wellknown_document envVar = "" /\
  result (wellKnownFile sample_Join world_wellknown_document) =
    Val wellKnown_home /\
  files world_wellknown_document !! wellKnown_home =
    Some (inr (list_byte_of_string sample_document)) /\
  sample_ADC context_Background sample_settings world_wellknown_document =
    ([EvGetenv envVar; EvGetenv "HOME"; EvReadFile wellKnown_home],
     Val (Some sample_credentials, None)).
Proof.
  assert (H1 : getenv world_wellknown_document envVar = "") by reflexivity.
  assert (H2 : result (wellKnownFile sample_Join world_wellknown_document) =
               Val wellKnown_home) by reflexivity.
  assert (H3 : files world_wellknown_document !! wellKnown_home =
               Some (inr (list_byte_of_string sample_document)))
    by reflexivity.
  repeat (split; [assumption|]).
  exact (proj1 (well_known_document_is_returned sample_Unmarshal
                  sample_TokenSource sample_Join context_Background
                  sample_settings world_wellknown_document wellKnown_home
                  (list_byte_of_string sample_document) sample_credentials
                  H1 H2 H3 eq_refl)).
Defined.

Lemma metadata_project_id_error_is_dropped_witness :
  getenv world_gce envVar = "" /\
  result (wellKnownFile sample_Join world_gce) = Val wellKnown_home /\
  files world_gce !! wellKnown_home = None /\
  appengineTokenFunc world_gce = None /\
  onGCE world_gce = true /\
  metadataProjectID world_gce =
    ("", Some (errorString "metadata: project id unavailable")) /\
  result (sample_ADC context_Background sample_settings world_gce) =
    Val (Some {| ProjectID := "";
                 Creds_TokenSource := Some (ComputeTokenSource "");
                 JSON := [] |}, None).
Proof.
  assert (H1 : getenv world_gce envVar = "") by reflexivity.
  assert (H2 : result (wellKnownFile sample_Join world_gce) =
               Val wellKnown_home) by reflexivity.
  assert (H3 : files world_gce !! wellKnown_home = None) by reflexivity.
  assert (H4 : appengineTokenFunc world_gce = None) by reflexivity.
  assert (H5 : onGCE world_gce = true) by reflexivity.
  assert (H6 : metadataProjectID world_gce =
               ("", Some (errorString "metadata: project id unavailable")))
    by reflexivity.
  repeat (split; [assumption|]).
  exact (metadata_project_id_error_is_dropped sample_Unmarshal
           sample_TokenSource sample_Join context_Background sample_settings
           world_gce wellKnown_home _ _ H1 H2 H3 (or_introl H4) H5 H6).
Defined.

Lemma appengine_before_metadata_witness :
  getenv world_appengine_gce envVar = "" /\
  result (wellKnownFile sample_Join world_appengine_gce) =
    Val wellKnown_home /\
  files world_appengine_gce !! wellKnown_home = None /\
  appengineTokenFunc world_appengine_gce <> None /\
  appengineFlex world_appengine_gce = false /\
  onGCE world_appengine_gce = true /\
  sample_ADC context_Background sample_settings world_appengine_gce =
    ([EvGetenv envVar; EvGetenv "HOME"; EvUserCurrent;
      EvReadFile wellKnown_home; EvAppID context_Background],
     Val (Some {| ProjectID := "app-1";
                  Creds_TokenSource :=
                    Some (AppEngineTokenSource context_Background "scope-a");
                  JSON := [] |}, None)).
Proof.
  assert (H1 : getenv world_appengine_gce envVar = "") by reflexivity.
  assert (H2 : result (wellKnownFile sample_Join world_appengine_gce) =
               Val wellKnown_home) by reflexivity.
  assert (H3 : files world_appengine_gce !! wellKnown_home = None)
    by reflexivity.
  assert (H4 : appengineTokenFunc world_appengine_gce <> None)
    by discriminate.
  assert (H5 : appengineFlex world_appengine_gce = false) by reflexivity.
  assert (H6 : onGCE world_appengine_gce = true) by reflexivity.
  repeat (split; [assumption|]).
  exact (appengine_before_metadata sample_Unmarshal sample_TokenSource
           sample_Join context_Background sample_settings
           world_appengine_gce wellKnown_home (fun _ => "app-1")
           H1 H2 H3 H4 H5 eq_refl).
Defined.

Lemma chain_errors_are_formatted_witness :
  result (sample_ADC context_Background sample_settings world_env_missing) =
    Val (None,
         Some (errorString
                 (envVarMessage
                    (PathError "open" "/nonexistent/path" ENOENT)))) /\
  exists msg,
    errorString
      (envVarMessage (PathError "open" "/nonexistent/path" ENOENT)) =
    errorString ("google: " +:+ msg) /\
    os_IsNotExist
      (errorString
         (envVarMessage (PathError "open" "/nonexistent/path" ENOENT))) =
    false.
Proof.
  assert (H : result (sample_ADC context_Background sample_settings
                        world_env_missing) =
              Val (None,
                   Some (errorString
                           (envVarMessage
                              (PathError "open" "/nonexistent/path" ENOENT)))))
    by reflexivity.
  split; [exact H|].
  destruct (chain_errors_are_formatted sample_Unmarshal sample_TokenSource
              sample_Join context_Background sample_settings
              world_env_missing _ _ H) as (msg & Hmsg & Hne & _).
  exists msg. split; [exact Hmsg | exact Hne].
Defined.

Lemma entry_points_panics_witness :
  result (sample_DefaultTokenSource context_Background "scope-a"
            world_token_hook_only) = Panic /\
  (appengineTokenFunc world_token_hook_only <> None /\
   appengineFlex world_token_hook_only = false /\
   appengineAppIDFunc world_token_hook_only = None) /\
  sample_OAuthJSONTokenSource context_Background None bare_world =
    ([], Panic).
Proof.
  assert (H : result (sample_DefaultTokenSource context_Background "scope-a"
                        world_token_hook_only) = Panic) by reflexivity.
  split; [exact H|]. split.
  - exact (proj1 (entry_points_panics sample_Unmarshal sample_TokenSource
                    sample_Join sample_JWTAccess context_Background
                    "scope-a" "" None world_token_hook_only)
             (or_introl H)).
  - exact (proj1 (proj2 (proj2 (entry_points_panics sample_Unmarshal
                                  sample_TokenSource sample_Join
                                  sample_JWTAccess context_Background
                                  "scope-a" "" None bare_world)))).
Defined.

Lemma OAuthJSONTokenSource_explicit_witness :
  CredentialsJSON sample_explicit_settings <> "" /\
  sample_OAuthJSONTokenSource context_Background
    (Some sample_explicit_settings) world_env_missing =
    ([], Val (Some (JWTConfigTokenSource "a@b" "..." ["scope-a"]), None)).
Proof.
  assert (H : CredentialsJSON sample_explicit_settings <> "")
    by (vm_compute; discriminate).
  split; [exact H|].
  exact (OAuthJSONTokenSource_explicit sample_Unmarshal sample_TokenSource
           sample_Join context_Background sample_explicit_settings
           world_env_missing H).
Defined.

Lemma JWTTokenSource_explicit_witness :
  CredentialsJSON sample_explicit_settings <> "" /\
  sample_JWTTokenSource context_Background (Some sample_explicit_settings)
    world_env_missing =
    ([], Val (Some (JWTConfigTokenSource "a@b" "..." [""]), None)).
Proof.
  assert (H : CredentialsJSON sample_explicit_settings <> "")
    by (vm_compute; discriminate).
  split; [exact H|].
  exact (JWTTokenSource_explicit sample_Unmarshal sample_TokenSource
           sample_Join sample_JWTAccess context_Background
           sample_explicit_settings world_env_missing H).
Defined.

Lemma jwt_from_platform_credentials_has_no_document_witness :
  getenv world_gce envVar = "" /\
  result (wellKnownFile sample_Join world_gce) = Val wellKnown_home /\
  files world_gce !! wellKnown_home = None /\
  CredentialsJSON sample_settings = "" /\
  result (sample_JWTTokenSource context_Background (Some sample_settings)
            world_gce) =
    Val (sample_JWTAccess [] "") /\
  result (sample_NewGrpcJWT context_Background "aud" world_gce) =
    Val (None, Some (errorString "unexpected end of JSON input")).
Proof.
  assert (H1 : getenv world_gce envVar = "") by reflexivity.
  assert (H2 : result (wellKnownFile sample_Join world_gce) =
               Val wellKnown_home) by reflexivity.
  assert (H3 : files world_gce !! wellKnown_home = None) by reflexivity.
  assert (H4 : CredentialsJSON sample_settings = "") by reflexivity.
  repeat (split; [assumption|]).
  destruct (jwt_from_platform_credentials_has_no_document sample_Unmarshal
              sample_TokenSource sample_Join sample_JWTAccess
              context_Background sample_settings "aud" world_gce
              wellKnown_home H1 H2 H3) as [Hjwt Hgrpc].
  split.
  - exact (Hjwt H4 _ eq_refl).
  - exact (Hgrpc _ eq_refl).
Defined.

Lemma NewGrpcApplicationDefault_reads_scope_only_witness :
  Scope sample_explicit_settings = Scope sample_settings /\
  CredentialsJSON sample_explicit_settings <> "" /\
  sample_NewGrpcApplicationDefault context_Background
    (Some sample_explicit_settings) world_gce =
  sample_NewGrpcApplicationDefault context_Background (Some sample_settings)
    world_gce.
Proof.
  assert (H : Scope sample_explicit_settings = Scope sample_settings)
    by reflexivity.
  split; [exact H|]. split; [vm_compute; discriminate|].
  exact (proj1 (NewGrpcApplicationDefault_reads_scope_only sample_Unmarshal
                  sample_TokenSource sample_Join context_Background
                  sample_explicit_settings sample_settings world_gce H)).
Defined.

Lemma DefaultTokenSource_metadata_ignores_scope_witness :
  getenv world_gce envVar = "" /\
  result (wellKnownFile sample_Join world_gce) = Val wellKnown_home /\
  files world_gce !! wellKnown_home = None /\
  appengineTokenFunc world_gce = None /\
  onGCE world_gce = true /\
  sample_DefaultTokenSource context_Background "scope-a" world_gce =
    ([EvGetenv envVar; EvGetenv "HOME"; EvUserCurrent;
      EvReadFile wellKnown_home; EvOnGCE; EvMetadataProjectID],
     Val (Some (ComputeTokenSource ""), None)).
Proof.
  assert (H1 : getenv world_gce envVar = "") by reflexivity.
  assert (H2 : result (wellKnownFile sample_Join world_gce) =
               Val wellKnown_home) by reflexivity.
  assert (H3 : files world_gce !! wellKnown_home = None) by reflexivity.
  assert (H4 : appengineTokenFunc world_gce = None) by reflexivity.
  assert (H5 : onGCE world_gce = true) by reflexivity.
  repeat (split; [assumption|]).
  exact (DefaultTokenSource_metadata_ignores_scope sample_Unmarshal
           sample_TokenSource sample_Join context_Background "scope-a"
           world_gce wellKnown_home H1 H2 H3 (or_introl H4) H5).
Defined.
